(** * The AI query relay of the ReliableParts dashboard

    A shallow embedding of [POST] from [frontend/app/api/ai/routes.ts]: the handler
    that takes a customer query, fetches the catalog, optionally asks a
    hosted language model, and answers with recommended products and
    follow-up suggestions.

    The handler is untyped JavaScript over JSON data ([products] and the
    model's reply are [any]), so the embedding works on JSON values with the
    dynamic checks of the language written out: property access on [null]
    throws, a method that is missing on the receiver throws, [||] and [?:]
    go through truthiness, [?.] stops a chain on [null] and [undefined]. *)

From Stdlib Require Import String Ascii List Bool Arith ZArith Lia DecimalString.
Import ListNotations.
Open Scope list_scope.
Open Scope string_scope.

(** ** JavaScript values *)

(** A JavaScript number is carried as its canonical rendering, the string
    that [Number.prototype.toString] gives for it ("12.5" for the literal
    12.50, "0" for both zeroes, "NaN").  The handler only ever renders a
    number, tests its truthiness and compares it with [SameValueZero]; all
    three are functions of that rendering. *)
Record number : Type := Num { Number_toString : string }.

(** The values [JSON.parse] and [Response.json] produce.  [undefined] is not
    one of them: a value that may be [undefined] is an [option JsValue]. *)
#[warnings="-register-all"]
Inductive JsValue : Type :=
| JNull
| JBool (b : bool)
| JNum (n : number)
| JStr (s : string)
| JArr (elems : list JsValue)
| JObj (props : list (string * JsValue)).

Definition undefined : option JsValue := None.

Inductive Exn : Type :=
| TypeError
| SyntaxError
| Error (message : string)
| Rejected.

(** A computation that returns or throws. *)
Inductive Result (A : Type) : Type :=
| Ok (a : A)
| Throw (e : Exn).
Arguments Ok {A} a.
Arguments Throw {A} e.

Definition rbind {A B} (r : Result A) (k : A -> Result B) : Result B :=
  match r with
  | Ok a => k a
  | Throw e => Throw e
  end.

Declare Scope result_scope.
Delimit Scope result_scope with result.
Notation "x <- r ;; k" := (rbind r (fun x => k))
  (at level 61, r at next level, right associativity) : result_scope.

(** *** Strings *)

(** Strings are sequences of code units; the model carries the code units
    below 256.  On those, [toLowerCase] moves A-Z and the accented capitals
    of Latin-1 (all of 0xC0-0xDE but the multiplication sign 0xD7) up by
    32 and leaves the rest alone. *)
Definition lower_unit (c : ascii) : ascii :=
  let n := nat_of_ascii c in
  if (((65 <=? n) && (n <=? 90)) ||
      ((192 <=? n) && (n <=? 222) && negb (n =? 215)))%nat
  then ascii_of_nat (n + 32)
  else c.

Fixpoint toLowerCase (s : string) : string :=
  match s with
  | EmptyString => EmptyString
  | String c s' => String (lower_unit c) (toLowerCase s')
  end.

(** [s.includes(sub)]: [sub] occurs in [s] at some position. *)
Fixpoint includes (s sub : string) : bool :=
  prefix sub s ||
  match s with
  | EmptyString => false
  | String _ s' => includes s' sub
  end.

(** [n.toString()] for a length. *)
Definition length_toString (n : nat) : string :=
  NilZero.string_of_uint (Nat.to_uint n).

Definition dquote : string := String "034"%char EmptyString.

(** [sep]-separated concatenation, as [Array.prototype.join]. *)
Fixpoint join (sep : string) (l : list string) : string :=
  match l with
  | [] => ""
  | [s] => s
  | s :: l' => s ++ sep ++ join sep l'
  end.

(** *** Conversions *)

Definition ToBoolean (v : option JsValue) : bool :=
  match v with
  | None => false
  | Some JNull => false
  | Some (JBool b) => b
  | Some (JNum n) =>
      negb (String.eqb (Number_toString n) "0" || String.eqb (Number_toString n) "NaN")
  | Some (JStr s) => negb (String.eqb s "")
  | Some (JArr _) => true
  | Some (JObj _) => true
  end.

Fixpoint assoc (k : string) (props : list (string * JsValue)) : option JsValue :=
  match props with
  | [] => None
  | (k', v) :: rest => if String.eqb k k' then Some v else assoc k rest
  end.

(** [ToString] of a JSON value.  An array joins the renderings of its
    elements with a comma, [null] elements rendering as nothing.  A plain
    object goes through [Object.prototype.toString], unless it has an own
    property called toString: a JSON value is never callable, and
    [valueOf] hands back the object itself, so the conversion throws. *)
Fixpoint ToString_value (v : JsValue) : Result string :=
  match v with
  | JNull => Ok "null"
  | JBool true => Ok "true"
  | JBool false => Ok "false"
  | JNum n => Ok (Number_toString n)
  | JStr s => Ok s
  | JArr elems =>
      let fix each (l : list JsValue) : Result (list string) :=
        match l with
        | [] => Ok []
        | e :: l' =>
            match (match e with JNull => Ok "" | _ => ToString_value e end) with
            | Throw x => Throw x
            | Ok s =>
                match each l' with
                | Throw x => Throw x
                | Ok ss => Ok (s :: ss)
                end
            end
        end in
      match each elems with
      | Throw x => Throw x
      | Ok ss => Ok (join "," ss)
      end
  | JObj props =>
      match assoc "toString" props with
      | Some _ => Throw TypeError
      | None => Ok "[object Object]"
      end
  end.

Definition ToString (v : option JsValue) : Result string :=
  match v with
  | None => Ok "undefined"
  | Some v => ToString_value v
  end.

(** *** Property access and the methods the handler calls *)

(** [v.k] for the property names the handler reads (query, sku, name,
    category, manufacturer, price, in_stock, answer, productSkus,
    suggestions).  None of them lives on a prototype, so only the own
    properties of an object can supply one. *)
Definition get (v : option JsValue) (k : string) : Result (option JsValue) :=
  match v with
  | None => Throw TypeError
  | Some JNull => Throw TypeError
  | Some (JObj props) => Ok (assoc k props)
  | Some _ => Ok undefined
  end.

(** [v.toLowerCase()]: only a string has the method. *)
Definition call_toLowerCase (v : option JsValue) : Result string :=
  match v with
  | Some (JStr s) => Ok (toLowerCase s)
  | _ => Throw TypeError
  end.

(** [SameValueZero], the comparison of [Array.prototype.includes].  Two
    objects are the same only when they are one allocation; the values
    compared here come out of two different parses (the catalog's and the
    model's), so an object or array is never found. *)
Definition SameValueZero (x : option JsValue) (y : JsValue) : bool :=
  match x, y with
  | Some JNull, JNull => true
  | Some (JBool a), JBool b => Bool.eqb a b
  | Some (JNum a), JNum b => String.eqb (Number_toString a) (Number_toString b)
  | Some (JStr a), JStr b => String.eqb a b
  | _, _ => false
  end.

(** [recv.includes(x)]: on an array the membership test, on a string the
    substring test against [ToString x], on anything else a [TypeError]
    since there is nothing to call. *)
Definition call_includes (recv : option JsValue) (x : option JsValue) : Result bool :=
  match recv with
  | Some (JArr elems) => Ok (existsb (SameValueZero x) elems)
  | Some (JStr s) => (sub <- ToString x ;; Ok (includes s sub))%result
  | _ => Throw TypeError
  end.

(** [arr.filter(f)]: the callback runs on every element, in order, and the
    first exception ends the loop. *)
Fixpoint filterR (f : JsValue -> Result bool) (l : list JsValue) : Result (list JsValue) :=
  match l with
  | [] => Ok []
  | x :: l' =>
      (b <- f x ;;
       rest <- filterR f l' ;;
       Ok (if b then x :: rest else rest))%result
  end.

Definition call_filter (recv : JsValue) (f : JsValue -> Result bool) : Result (list JsValue) :=
  match recv with
  | JArr elems => filterR f elems
  | _ => Throw TypeError
  end.

(** [text.match(/\{[\s\S]*\}/)]: the class [[\s\S]] takes any code unit and
    the star is greedy, so the match starts at the first opening brace and
    runs to the last closing brace after it. *)
Fixpoint from_first_open (s : string) : option string :=
  match s with
  | EmptyString => None
  | String c s' => if Ascii.eqb c "{" then Some s else from_first_open s'
  end.

Fixpoint upto_last_close (s : string) : option string :=
  match s with
  | EmptyString => None
  | String c s' =>
      match upto_last_close s' with
      | Some r => Some (String c r)
      | None => if Ascii.eqb c "}" then Some (String c EmptyString) else None
      end
  end.

Definition jsonMatch (text : string) : option string :=
  match from_first_open text with
  | Some (String c rest) => option_map (String c) (upto_last_close rest)
  | _ => None
  end.

(** ** The world outside the handler *)

(** The projection of a product that goes into the prompt. *)
Record PromptProduct : Type := {
  pp_sku : option JsValue;
  pp_name : option JsValue;
  pp_category : option JsValue;
  pp_price : option JsValue;
  pp_in_stock : option JsValue
}.

(** What the prompt template interpolates: the query as rendered, the
    sample of products and the size of the collection.  The fixed text
    around them is the same in every request. *)
Record Prompt : Type := {
  prompt_query : string;
  prompt_sample : list PromptProduct;
  prompt_total : nat
}.

(** The upstream calls a request can make. *)
Inductive Upstream : Type :=
| CatalogFetch
| ModelCall (prompt : Prompt).

(** Everything one request depends on and the handler does not compute:
    the request body, the catalog's answer, the environment, the model's
    answer to a prompt, and the runtime's [JSON.parse]. *)
Record World : Type := {
  request_json : Result JsValue;
  fetch_products : Result JsValue;
  GEMINI_API_KEY : option string;
  generateContent : Prompt -> Result string;
  JSON_parse : string -> Result JsValue
}.

Record Response : Type := {
  status : nat;
  body : list (string * JsValue)
}.

Definition NextResponse_json (body : list (string * JsValue)) (status : nat) : Response :=
  {| status := status; body := body |}.

(** ** Computations that call upstream

    The log of calls made so far is threaded through; an exception keeps
    the log, since the calls have happened. *)
Definition M (A : Type) : Type := list Upstream -> Result A * list Upstream.

Definition ret {A} (a : A) : M A := fun log => (Ok a, log).

Definition bind {A B} (m : M A) (k : A -> M B) : M B :=
  fun log =>
    match m log with
    | (Ok a, log') => k a log'
    | (Throw e, log') => (Throw e, log')
    end.

Definition lift {A} (r : Result A) : M A := fun log => (r, log).

Definition attempt {A} (call : Upstream) (outcome : Result A) : M A :=
  fun log => (outcome, (log ++ [call])%list).

Definition try_catch {A} (m : M A) (handler : Exn -> M A) : M A :=
  fun log =>
    match m log with
    | (Ok a, log') => (Ok a, log')
    | (Throw e, log') => handler e log'
    end.

Declare Scope relay_scope.
Delimit Scope relay_scope with relay.
Notation "x <- m ;; k" := (bind m (fun x => k))
  (at level 61, m at next level, right associativity) : relay_scope.

(** ** The handler *)

Section Pure.
Local Open Scope result_scope.

(** [a || b] where only the truthiness of the result is used. *)
Definition orR (a b : Result bool) : Result bool :=
  x <- a ;; if x then Ok true else b.
Infix "|||" := orR (at level 50, left associativity).

(** [v || d] where the value is used. *)
Definition or_else (v : option JsValue) (d : JsValue) : JsValue :=
  match v with
  | Some x => if ToBoolean v then x else d
  | None => d
  end.

(** [p.k?.toLowerCase().includes(queryLower)], as a truth value: the chain
    stops with [undefined] when [p.k] is [null] or [undefined]. *)
Definition field_includes (p : JsValue) (k : string) (queryLower : string) : Result bool :=
  v <- get (Some p) k ;;
  match v with
  | None => Ok false
  | Some JNull => Ok false
  | Some _ => s <- call_toLowerCase v ;; Ok (includes s queryLower)
  end.

(** The callback of the two filters on the model path (lines 93-97 and
    116-120). *)
Definition matches_name_category_sku (queryLower : string) (p : JsValue) : Result bool :=
  field_includes p "name" queryLower |||
  field_includes p "category" queryLower |||
  field_includes p "sku" queryLower.

(** The callback of the filter without a credential (lines 139-144). *)
Definition matches_name_category_sku_manufacturer (queryLower : string) (p : JsValue)
  : Result bool :=
  field_includes p "name" queryLower |||
  field_includes p "category" queryLower |||
  field_includes p "sku" queryLower |||
  field_includes p "manufacturer" queryLower.

Fixpoint mapR {A B} (f : A -> Result B) (l : list A) : Result (list B) :=
  match l with
  | [] => Ok []
  | x :: l' => y <- f x ;; ys <- mapR f l' ;; Ok (y :: ys)
  end.

(** Lines 31-60: the prompt.  [products.slice(0, 10).map(...)] needs an
    array, and the projection reads five properties of every element. *)
Definition project (p : JsValue) : Result PromptProduct :=
  sku <- get (Some p) "sku" ;;
  name <- get (Some p) "name" ;;
  category <- get (Some p) "category" ;;
  price <- get (Some p) "price" ;;
  in_stock <- get (Some p) "in_stock" ;;
  Ok {| pp_sku := sku; pp_name := name; pp_category := category;
        pp_price := price; pp_in_stock := in_stock |}.

Definition buildPrompt (query : option JsValue) (products : JsValue) : Result Prompt :=
  q <- ToString query ;;
  match products with
  | JArr elems =>
      sample <- mapR project (firstn 10 elems) ;;
      Ok {| prompt_query := q; prompt_sample := sample; prompt_total := List.length elems |}
  | _ => Throw TypeError
  end.

(** Lines 67-83: the reply of the model as an object.  The inner [try]
    swallows both the missing match and the exception of [JSON.parse]. *)
Definition textReply (text : string) : JsValue :=
  JObj [("answer", JStr (substring 0 500 text));
        ("productSkus", JArr []);
        ("suggestions", JArr [])].

Definition parseReply (parse : string -> Result JsValue) (text : string) : JsValue :=
  match
    match jsonMatch text with
    | Some m => parse m
    | None => Throw (Error "No JSON found in response")
    end
  with
  | Ok v => v
  | Throw _ => textReply text
  end.

(** Lines 86-88: the SKUs of the reply mapped back to products. *)
Definition mapSkus (products : JsValue) (aiResponse : JsValue) : Result (list JsValue) :=
  skus <- get (Some aiResponse) "productSkus" ;;
  if ToBoolean skus then
    found <- call_filter products (fun p =>
               recv <- get (Some aiResponse) "productSkus" ;;
               sku <- get (Some p) "sku" ;;
               call_includes recv sku) ;;
    Ok (firstn 5 found)
  else Ok [].

Definition default_suggestions : list JsValue :=
  [JStr "Try filtering by brand"; JStr "Check product compatibility"; JStr "View similar items"].

Definition model_error_suggestions : list JsValue :=
  [JStr "Check product availability"; JStr "View specifications"; JStr "Compare prices"].

Definition no_credential_suggestions : list JsValue :=
  [JStr "Try searching by brand"; JStr "Look for specific part types"; JStr "Check compatibility"].

Definition failure_suggestions : list JsValue :=
  [JStr "Try a simpler search"; JStr "Contact support"; JStr "Browse categories"].

(** Lines 85-110: from the reply to the response. *)
Definition replyResponse (query : option JsValue) (products aiResponse : JsValue)
  : Result Response :=
  mapped <- mapSkus products aiResponse ;;
  recommendedProducts <-
    (if Nat.eqb (List.length mapped) 0 then
       queryLower <- call_toLowerCase query ;;
       filtered <- call_filter products (matches_name_category_sku queryLower) ;;
       Ok (mapped ++ firstn 5 filtered)%list
     else Ok mapped) ;;
  answer <- get (Some aiResponse) "answer" ;;
  suggestions <- get (Some aiResponse) "suggestions" ;;
  Ok (NextResponse_json
        [("answer", or_else answer
            (JStr ("I found " ++ length_toString (List.length recommendedProducts)
                   ++ " products that might interest you.")));
         ("recommendedProducts", JArr recommendedProducts);
         ("relatedSuggestions", or_else suggestions (JArr default_suggestions))]
        200).

(** Lines 113-134: the handler of a failure on the model path. *)
Definition modelErrorResponse (query : option JsValue) (products : JsValue) : Result Response :=
  queryLower <- call_toLowerCase query ;;
  found <- call_filter products (matches_name_category_sku queryLower) ;;
  let filteredProducts := firstn 5 found in
  q <- ToString query ;;
  tail <- match filteredProducts with
          | top :: _ =>
              name <- get (Some top) "name" ;;
              n <- ToString name ;;
              Ok ("The top result is " ++ n ++ ".")
          | [] => Ok "Try searching for specific brands or product types."
          end ;;
  Ok (NextResponse_json
        [("answer", JStr ("I found " ++ length_toString (List.length filteredProducts)
                          ++ " products matching " ++ dquote ++ q ++ dquote ++ ". " ++ tail));
         ("recommendedProducts", JArr filteredProducts);
         ("relatedSuggestions", JArr model_error_suggestions)]
        200).

(** Lines 137-158: the search without a credential. *)
Definition noCredentialResponse (query : option JsValue) (products : JsValue) : Result Response :=
  queryLower <- call_toLowerCase query ;;
  found <- call_filter products (matches_name_category_sku_manufacturer queryLower) ;;
  let filteredProducts := firstn 5 found in
  q <- ToString query ;;
  tail <- match filteredProducts with
          | top :: _ =>
              name <- get (Some top) "name" ;;
              n <- ToString name ;;
              sku <- get (Some top) "sku" ;;
              s <- ToString sku ;;
              price <- get (Some top) "price" ;;
              p <- ToString price ;;
              Ok ("Top result: " ++ n ++ " (" ++ s ++ ") - $" ++ p)
          | [] => Ok "Try searching for brands like Whirlpool, GE, or product types like pump, filter."
          end ;;
  Ok (NextResponse_json
        [("answer", JStr ("Found " ++ length_toString (List.length filteredProducts)
                          ++ " products matching " ++ dquote ++ q ++ dquote ++ ". " ++ tail));
         ("recommendedProducts", JArr filteredProducts);
         ("relatedSuggestions", JArr no_credential_suggestions)]
        200).

End Pure.

(** Line 14. *)
Definition invalidInputResponse : Response :=
  NextResponse_json [("error", JStr "Query is required")] 400.

(** Lines 163-171. *)
Definition failureResponse : Response :=
  NextResponse_json
    [("error", JStr "Failed to process query");
     ("answer", JStr "Sorry, I encountered an error. Please try again.");
     ("recommendedProducts", JArr []);
     ("relatedSuggestions", JArr failure_suggestions)]
    500.

(** [process.env.GEMINI_API_KEY] as a condition: set and not empty. *)
Definition credential_configured (w : World) : bool :=
  match GEMINI_API_KEY w with
  | Some key => negb (String.eqb key "")
  | None => false
  end.

Section Handler.
Local Open Scope relay_scope.

(** Lines 28-111: the [try] block of the model path. *)
Definition modelPath (w : World) (query : option JsValue) (products : JsValue) : M Response :=
  prompt <- lift (buildPrompt query products) ;;
  text <- attempt (ModelCall prompt) (generateContent w prompt) ;;
  lift (replyResponse query products (parseReply (JSON_parse w) text)).

(** Lines 10-159: the body of the outer [try]. *)
Definition handle (w : World) : M Response :=
  body <- lift (request_json w) ;;
  query <- lift (get (Some body) "query") ;;
  if negb (ToBoolean query) then ret invalidInputResponse
  else
    products <- try_catch (attempt CatalogFetch (fetch_products w))
                          (fun _ => ret (JArr [])) ;;
    if credential_configured w then
      try_catch (modelPath w query products)
                (fun _ => lift (modelErrorResponse query products))
    else lift (noCredentialResponse query products).

End Handler.

(** The handler: the response, and the upstream calls made on the way. *)
Definition POST (w : World) : Response * list Upstream :=
  match handle w [] with
  | (Ok response, log) => (response, log)
  | (Throw _, log) => (failureResponse, log)
  end.

Definition response_of (w : World) : Response := fst (POST w).
Definition calls_of (w : World) : list Upstream := snd (POST w).

Definition field (r : Response) (k : string) : option JsValue := assoc k (body r).

(** The object of a success: three fields and the default status. *)
Definition success (answer : JsValue) (recommended : list JsValue) (suggestions : JsValue)
  : Response :=
  NextResponse_json
    [("answer", answer);
     ("recommendedProducts", JArr recommended);
     ("relatedSuggestions", suggestions)]
    200.

(** ** What the specification talks about *)

(** A product record as the catalog serves it: an object whose name,
    category, SKU and manufacturer are text when present, and whose price
    is not a nested structure. *)
Definition text_or_absent (v : option JsValue) : bool :=
  match v with
  | None => true
  | Some JNull => true
  | Some (JStr _) => true
  | Some _ => false
  end.

Definition scalar_or_absent (v : option JsValue) : bool :=
  match v with
  | Some (JArr _) => false
  | Some (JObj _) => false
  | _ => true
  end.

Definition is_product (p : JsValue) : bool :=
  match p with
  | JObj props =>
      text_or_absent (assoc "name" props) &&
      text_or_absent (assoc "category" props) &&
      text_or_absent (assoc "sku" props) &&
      text_or_absent (assoc "manufacturer" props) &&
      scalar_or_absent (assoc "price" props)
  | _ => false
  end.

(** The text of a field of a record, empty when the record has none. *)
Definition text_of (p : JsValue) (k : string) : string :=
  match p with
  | JObj props =>
      match assoc k props with
      | Some (JStr s) => s
      | _ => ""
      end
  | _ => ""
  end.

(** "contains the query substring (case-insensitive)". *)
Definition contains_ci (text query : string) : bool :=
  includes (toLowerCase text) (toLowerCase query).

(** The fallback matcher in the specification's words: name, category,
    manufacturer or SKU contains the query. *)
Definition spec_matcher (query : string) (p : JsValue) : bool :=
  contains_ci (text_of p "name") query ||
  contains_ci (text_of p "category") query ||
  contains_ci (text_of p "manufacturer") query ||
  contains_ci (text_of p "sku") query.

(** The matcher of the model path: no manufacturer. *)
Definition three_field_matcher (query : string) (p : JsValue) : bool :=
  contains_ci (text_of p "name") query ||
  contains_ci (text_of p "category") query ||
  contains_ci (text_of p "sku") query.

(** How a template renders a property of a record. *)
Definition render (p : JsValue) (k : string) : string :=
  match p with
  | JObj props =>
      match ToString (assoc k props) with
      | Ok s => s
      | Throw _ => ""
      end
  | _ => ""
  end.

(** The collection the handler works on: what the catalog served, or
    nothing when the fetch failed. *)
Definition collection (w : World) : JsValue :=
  match fetch_products w with
  | Ok v => v
  | Throw _ => JArr []
  end.

(** The query of the request, when the body is an object that has one. *)
Definition query_of (w : World) : option JsValue :=
  match request_json w with
  | Ok (JObj props) => assoc "query" props
  | _ => None
  end.

(** Code units that [String.prototype.trim] removes. *)
Definition is_whitespace (c : ascii) : bool :=
  let n := nat_of_ascii c in
  ((Nat.leb 9 n && Nat.leb n 13) || Nat.eqb n 32 || Nat.eqb n 160)%bool.

Fixpoint whitespace_only (s : string) : bool :=
  match s with
  | EmptyString => true
  | String c s' => is_whitespace c && whitespace_only s'
  end.

(** The first balanced brace-delimited substring, in the specification's
    words: [close_at depth s] is the prefix of [s] that ends where the
    braces opened so far are all closed. *)
Fixpoint close_at (depth : nat) (s : string) : option string :=
  match s with
  | EmptyString => None
  | String c s' =>
      if Ascii.eqb c "{" then option_map (String c) (close_at (S depth) s')
      else if Ascii.eqb c "}" then
        match depth with
        | 0 => None
        | 1 => Some (String c EmptyString)
        | S d => option_map (String c) (close_at d s')
        end
      else option_map (String c) (close_at depth s')
  end.

Fixpoint first_balanced (s : string) : option string :=
  match s with
  | EmptyString => None
  | String c s' =>
      if Ascii.eqb c "{" then
        match close_at 0 s with
        | Some b => Some b
        | None => first_balanced s'
        end
      else first_balanced s'
  end.

(** The answer of the search without a credential, as the specification
    describes it: the number of matches returned, the query, and the top
    match's name, SKU and price when there is one. *)
Definition no_credential_answer (query : string) (matches : list JsValue) : string :=
  "Found " ++ length_toString (List.length matches) ++ " products matching "
  ++ dquote ++ query ++ dquote ++ ". " ++
  match matches with
  | top :: _ =>
      "Top result: " ++ render top "name" ++ " (" ++ render top "sku" ++ ") - $"
      ++ render top "price"
  | [] => "Try searching for brands like Whirlpool, GE, or product types like pump, filter."
  end.

(** The answer after a failed model call: the number of products
    returned, the query, and the name of the first product. *)
Definition model_error_answer (query : string) (matches : list JsValue) : string :=
  "I found " ++ length_toString (List.length matches) ++ " products matching "
  ++ dquote ++ query ++ dquote ++ ". " ++
  match matches with
  | top :: _ => "The top result is " ++ render top "name" ++ "."
  | [] => "Try searching for specific brands or product types."
  end.

(** No JSON comes out of the text: the pattern finds nothing, or
    [JSON.parse] throws on what it found. *)
Definition unparseable (w : World) (text : string) : Prop :=
  forall m, jsonMatch text = Some m -> exists e, JSON_parse w m = Throw e.

(** The answer made of the raw text: its first 500 code units, or the
    sentence with the count when the text is empty. *)
Definition text_answer (text : string) (count : nat) : JsValue :=
  if String.eqb (substring 0 500 text) ""
  then JStr ("I found " ++ length_toString count ++ " products that might interest you.")
  else JStr (substring 0 500 text).

(** [c] is one of the code units of [s]. *)
Fixpoint occurs (c : ascii) (s : string) : bool :=
  match s with
  | EmptyString => false
  | String c' s' => Ascii.eqb c' c || occurs c s'
  end.

(** The SKU of a product, and the products a list of SKUs names. *)
Definition sku_of (p : JsValue) : option JsValue :=
  match p with
  | JObj props => assoc "sku" props
  | _ => None
  end.

Definition listed (skus : list JsValue) (p : JsValue) : bool :=
  existsb (SameValueZero (sku_of p)) skus.

Definition skus_of (ps : list JsValue) : list JsValue :=
  flat_map (fun p => match sku_of p with Some sku => [sku] | None => [] end) ps.

(** ** The paths through the handler *)

(** The guard of line 13 let the request through: the body could be read
    and destructured, and its query is truthy. *)
Definition accepted (w : World) : bool :=
  match request_json w with
  | Ok body =>
      match get (Some body) "query" with
      | Ok query => ToBoolean query
      | Throw _ => false
      end
  | Throw _ => false
  end.

(** How a request ended. *)
Inductive Outcome (w : World) : Response -> list Upstream -> Prop :=
| invalid_input :
    accepted w = false ->
    Outcome w invalidInputResponse []
| unreadable :
    accepted w = false ->
    Outcome w failureResponse []
| failure log :
    accepted w = true ->
    Outcome w failureResponse (CatalogFetch :: log)
| no_credential answer l :
    accepted w = true ->
    credential_configured w = false ->
    List.length l <= 5 ->
    Outcome w (success answer l (JArr no_credential_suggestions)) [CatalogFetch]
| model_error answer l log :
    accepted w = true ->
    credential_configured w = true ->
    List.length l <= 5 ->
    Outcome w (success answer l (JArr model_error_suggestions)) (CatalogFetch :: log)
| model_reply answer l prompt text suggestions :
    accepted w = true ->
    credential_configured w = true ->
    List.length l <= 5 ->
    generateContent w prompt = Ok text ->
    get (Some (parseReply (JSON_parse w) text)) "suggestions" = Ok suggestions ->
    Outcome w (success answer l (or_else suggestions (JArr default_suggestions)))
            [CatalogFetch; ModelCall prompt].

Definition three_strings (pool : list JsValue) : Prop :=
  exists a b c, pool = [JStr a; JStr b; JStr c].

(** ** Sample data *)

Definition product (sku name category manufacturer price : string) : JsValue :=
  JObj [("sku", JStr sku); ("name", JStr name); ("category", JStr category);
        ("price", JNum (Num price)); ("in_stock", JBool true);
        ("manufacturer", JStr manufacturer)].

Definition sample_catalog : list JsValue :=
  [product "WP-001" "Whirlpool Water Filter" "Filters" "Whirlpool" "45.99";
   product "GE-002" "GE Oven Heating Element" "Oven Parts" "GE" "89.99";
   product "LG-003" "LG Dishwasher Pump" "Dishwasher Parts" "LG" "125.5";
   product "SM-004" "Samsung Dryer Belt" "Dryer Parts" "Samsung" "32.99";
   product "WP-005" "Whirlpool Agitator" "Washer Parts" "Whirlpool" "78.5";
   product "W10-006" "Dishwasher Drain Pump" "Dishwasher Parts" "Whirlpool" "64";
   product "FR-007" "Frigidaire Door Gasket" "Refrigerator Parts" "Frigidaire" "54.25"].

(** The scenario of the specification: one product whose manufacturer is
    Whirlpool, and nothing else in it says so. *)
Definition whirlpool_pump : JsValue :=
  product "W10-006" "Dishwasher Drain Pump" "Dishwasher Parts" "Whirlpool" "64".

(** [JSON.parse] cut down to the one text that the scenarios below give
    it to read, the empty object. *)
Definition empty_object_only (s : string) : Result JsValue :=
  if String.eqb s "{}" then Ok (JObj []) else Throw SyntaxError.

Definition whirlpool_world (key : option string) (model : Result string) : World :=
  {| request_json := Ok (JObj [("query", JStr "Whirlpool")]);
     fetch_products := Ok (JArr [whirlpool_pump]);
     GEMINI_API_KEY := key;
     generateContent := fun _ => model;
     JSON_parse := empty_object_only |}.

(** A request for [query] against the sample catalog.  The replies used
    with it have no brace in them, so [JSON.parse] is never reached. *)
Definition world0 (query : JsValue) (key : option string) (model : Result string) : World :=
  {| request_json := Ok (JObj [("query", query)]);
     fetch_products := Ok (JArr sample_catalog);
     GEMINI_API_KEY := key;
     generateContent := fun _ => model;
     JSON_parse := fun _ => Throw SyntaxError |}.

(** A reply of the model with a single suggestion, and a [JSON.parse] that
    reads it. *)
Definition one_suggestion_text : string :=
  "{" ++ dquote ++ "suggestions" ++ dquote ++ ": [" ++ dquote ++ "Ask about pumps" ++ dquote ++ "]}".

Definition one_suggestion_world : World :=
  {| request_json := Ok (JObj [("query", JStr "pump")]);
     fetch_products := Ok (JArr sample_catalog);
     GEMINI_API_KEY := Some "key";
     generateContent := fun _ => Ok ("Here you go: " ++ one_suggestion_text);
     JSON_parse := fun s =>
       if String.eqb s one_suggestion_text
       then Ok (JObj [("suggestions", JArr [JStr "Ask about pumps"])])
       else Throw SyntaxError |}.

(** A reply that names two SKUs, and a [JSON.parse] that reads it. *)
Definition two_skus_text : string :=
  "{" ++ dquote ++ "productSkus" ++ dquote ++ ": [" ++ dquote ++ "SM-004" ++ dquote
  ++ ", " ++ dquote ++ "GE-002" ++ dquote ++ "]}".

Definition two_skus_world : World :=
  {| request_json := Ok (JObj [("query", JStr "something for the kitchen")]);
     fetch_products := Ok (JArr sample_catalog);
     GEMINI_API_KEY := Some "key";
     generateContent := fun _ => Ok two_skus_text;
     JSON_parse := fun s =>
       if String.eqb s two_skus_text
       then Ok (JObj [("productSkus", JArr [JStr "SM-004"; JStr "GE-002"])])
       else Throw SyntaxError |}.

(** A reply that gives its SKUs as one string. *)
Definition text_skus_reply : JsValue :=
  JObj [("answer", JStr "Either of these."); ("productSkus", JStr "GE-002, WP-005")].

(** A reply whose productSkus is a number, and a [JSON.parse] that reads
    it. *)
Definition numeric_skus_text : string :=
  "{" ++ dquote ++ "answer" ++ dquote ++ ": " ++ dquote ++ "Take this one." ++ dquote
  ++ ", " ++ dquote ++ "productSkus" ++ dquote ++ ": 4}".

Definition numeric_skus_world : World :=
  {| request_json := Ok (JObj [("query", JStr "belt")]);
     fetch_products := Ok (JArr sample_catalog);
     GEMINI_API_KEY := Some "key";
     generateContent := fun _ => Ok numeric_skus_text;
     JSON_parse := fun s =>
       if String.eqb s numeric_skus_text
       then Ok (JObj [("answer", JStr "Take this one."); ("productSkus", JNum (Num "4"))])
       else Throw SyntaxError |}.

(** ** The handler past the guard *)

(** The response of a branch that may have thrown: the outer [catch]
    turns the exception into the failure response. *)
Definition finish (r : Result Response) : Response :=
  match r with
  | Ok response => response
  | Throw _ => failureResponse
  end.

(** Lines 17-159 with the log written out: the fetch, then the model path
    with its handler, or the search without a credential. *)
Definition served (w : World) : Response * list Upstream :=
  let query := query_of w in
  let products := collection w in
  if credential_configured w then
    match buildPrompt query products with
    | Ok prompt =>
        match generateContent w prompt with
        | Ok text =>
            match replyResponse query products (parseReply (JSON_parse w) text) with
            | Ok response => (response, [CatalogFetch; ModelCall prompt])
            | Throw _ =>
                (finish (modelErrorResponse query products), [CatalogFetch; ModelCall prompt])
            end
        | Throw _ =>
            (finish (modelErrorResponse query products), [CatalogFetch; ModelCall prompt])
        end
    | Throw _ => (finish (modelErrorResponse query products), [CatalogFetch])
    end
  else (finish (noCredentialResponse query products), [CatalogFetch]).

(** With a credential, the reply of the model is not what the response
    is made of: the prompt could not be built, the model call failed, or
    the handling of the reply (lines 85-110) threw.  In each case the
    [catch] of lines 112-134 answers. *)
Definition model_reply_unused (w : World) : Prop :=
  match buildPrompt (query_of w) (collection w) with
  | Throw _ => True
  | Ok prompt =>
      match generateContent w prompt with
      | Throw _ => True
      | Ok text =>
          match replyResponse (query_of w) (collection w)
                              (parseReply (JSON_parse w) text) with
          | Throw _ => True
          | Ok _ => False
          end
      end
  end.

(** [l] is [l'] with some elements left out, the order kept. *)
Inductive Subseq {A : Type} : list A -> list A -> Prop :=
| subseq_nil : Subseq [] []
| subseq_skip x l l' : Subseq l l' -> Subseq l (x :: l')
| subseq_keep x l l' : Subseq l l' -> Subseq (x :: l) (x :: l').

Definition is_array (v : JsValue) : bool :=
  match v with
  | JArr _ => true
  | _ => false
  end.

(** A product whose SKU is text, as the schema of the catalog has it. *)
Definition has_text_sku (p : JsValue) : bool :=
  match sku_of p with
  | Some (JStr _) => true
  | _ => false
  end.

(** A truthy value that has no [includes] to call: neither an array nor a
    string. *)
Definition truthy_without_includes (v : option JsValue) : bool :=
  match v with
  | Some (JArr _) => false
  | Some (JStr _) => false
  | _ => ToBoolean v
  end.

(** * The dashboard

    The client of the relay, [frontend/components/Dashboard.tsx]: the
    search of the product table, its pages, and the guard in front of the
    request to the relay.  Page numbers and indices are JavaScript numbers
    that hold integers; they are integers here, negative ones included. *)

(** [arr.slice(start, end)] on integers: a negative index counts from the
    end, both ends are clamped to the array, and an end before the start
    gives nothing. *)
Definition slice {A : Type} (l : list A) (start stop : Z) : list A :=
  let len := Z.of_nat (List.length l) in
  let k := if (start <? 0)%Z then Z.max (len + start) 0 else Z.min start len in
  let final := if (stop <? 0)%Z then Z.max (len + stop) 0 else Z.min stop len in
  firstn (Z.to_nat (final - k)) (skipn (Z.to_nat k) l).

(** Lines 146-149. *)
Definition indexOfLastItem (currentPage itemsPerPage : Z) : Z :=
  (currentPage * itemsPerPage)%Z.

Definition indexOfFirstItem (currentPage itemsPerPage : Z) : Z :=
  (indexOfLastItem currentPage itemsPerPage - itemsPerPage)%Z.

Definition currentProducts {A : Type} (filteredProducts : list A)
           (currentPage itemsPerPage : Z) : list A :=
  slice filteredProducts (indexOfFirstItem currentPage itemsPerPage)
        (indexOfLastItem currentPage itemsPerPage).

(** [Math.ceil(filteredProducts.length / itemsPerPage)] for a positive
    page size: the quotient of an array length by a page size of at most
    100 is far from the precision of a double, so the ceiling is the exact
    one. *)
Definition totalPages {A : Type} (filteredProducts : list A) (itemsPerPage : Z) : Z :=
  (- ((- Z.of_nat (List.length filteredProducts)) / itemsPerPage))%Z.

(** Lines 161-171, the page they set. *)
Definition handlePreviousPage (currentPage : Z) : Z :=
  if (1 <? currentPage)%Z then (currentPage - 1)%Z else currentPage.

Definition handleNextPage (currentPage totalPages : Z) : Z :=
  if (currentPage <? totalPages)%Z then (currentPage + 1)%Z else currentPage.

(** Lines 174-199: the buttons of the page bar. *)
Inductive PageItem : Type :=
| PageNumber (n : Z)
| Ellipsis.

Definition delta : Z := 2.

(** The values of [i] in [for (let i = 1; i <= totalPages; i++)]. *)
Definition pages_upto (totalPages : Z) : list Z :=
  map Z.of_nat (seq 1 (Z.to_nat totalPages)).

Definition in_page_range (currentPage totalPages i : Z) : bool :=
  ((i =? 1) || (i =? totalPages) ||
   ((currentPage - delta <=? i) && (i <=? currentPage + delta)))%Z.

Definition page_range (currentPage totalPages : Z) : list Z :=
  filter (in_page_range currentPage totalPages) (pages_upto totalPages).

(** The [forEach] over the range; [l] is the page pushed last, [undefined]
    at first, and [if (l)] is its truthiness. *)
Fixpoint rangeWithDots (l : option Z) (range : list Z) : list PageItem :=
  match range with
  | [] => []
  | i :: rest =>
      (match l with
       | Some l' =>
           if (l' =? 0)%Z then []
           else if (i - l' =? 2)%Z then [PageNumber (l' + 1)]
           else if negb (i - l' =? 1)%Z then [Ellipsis]
           else []
       | None => []
       end ++ PageNumber i :: rangeWithDots (Some i) rest)%list
  end.

Definition getPageNumbers (currentPage totalPages : Z) : list PageItem :=
  rangeWithDots None (page_range currentPage totalPages).

(** The pages of [l] go up, starting above [prev]. *)
Fixpoint ascending (prev : Z) (l : list Z) : Prop :=
  match l with
  | [] => True
  | i :: rest => (prev < i)%Z /\ ascending i rest
  end.

(** What a well-laid page bar looks like after the button of page [prev]:
    a number is the next page; an ellipsis is followed by a number and
    stands for at least two pages. *)
Fixpoint bar_after (prev : Z) (items : list PageItem) : bool :=
  match items with
  | [] => true
  | PageNumber n :: rest => (n =? prev + 1)%Z && bar_after n rest
  | Ellipsis :: PageNumber n :: rest => (prev + 3 <=? n)%Z && bar_after n rest
  | Ellipsis :: _ => false
  end.

(** A click on the page bar: the two arrows, or a numbered button, which
    is there to click only when [getPageNumbers] has it. *)
Inductive Click : Type :=
| ClickPrevious
| ClickNext
| ClickPage (n : Z).

Definition is_page (n : Z) (item : PageItem) : bool :=
  match item with
  | PageNumber m => (m =? n)%Z
  | Ellipsis => false
  end.

Definition click (totalPages currentPage : Z) (c : Click) : Z :=
  match c with
  | ClickPrevious => handlePreviousPage currentPage
  | ClickNext => handleNextPage currentPage totalPages
  | ClickPage n =>
      if existsb (is_page n) (getPageNumbers currentPage totalPages) then n else currentPage
  end.

(** Lines 139-143: the callback of the search of the table.  No [?.]
    here: a product without a name or a SKU throws. *)
Definition text_includes (p : JsValue) (k : string) (searchTerm : string) : Result bool :=
  rbind (get (Some p) k) (fun v =>
  rbind (call_toLowerCase v) (fun s =>
  Ok (includes s (toLowerCase searchTerm)))).

Definition tableFilter (searchTerm : string) (product : JsValue) : Result bool :=
  orR (orR (text_includes product "name" searchTerm)
           (text_includes product "sku" searchTerm))
      (rbind (get (Some product) "manufacturer") (fun m =>
       if ToBoolean m then text_includes product "manufacturer" searchTerm
       else Ok false)).

Definition tableProducts (products : JsValue) (searchTerm : string) : Result (list JsValue) :=
  call_filter products (tableFilter searchTerm).

(** A row of the table as the [Product] interface types it: name and SKU
    are strings, the manufacturer is a string when there is one. *)
Definition is_row (p : JsValue) : bool :=
  match p with
  | JObj props =>
      match assoc "name" props, assoc "sku" props with
      | Some (JStr _), Some (JStr _) => text_or_absent (assoc "manufacturer" props)
      | _, _ => false
      end
  | _ => false
  end.

(** [s.trim()]. *)
Fixpoint trimStart (s : string) : string :=
  match s with
  | EmptyString => EmptyString
  | String c s' => if is_whitespace c then trimStart s' else s
  end.

Fixpoint trimEnd (s : string) : string :=
  match s with
  | EmptyString => EmptyString
  | String c s' =>
      match trimEnd s' with
      | EmptyString => if is_whitespace c then EmptyString else String c EmptyString
      | r => String c r
      end
  end.

Definition trim (s : string) : string := trimEnd (trimStart s).

(** Lines 220-229: the body [handleAIQuery] posts to the relay, as the
    relay reads it back, or nothing when the guard stops the query. *)
Definition aiRequest (aiQuery : string) : option JsValue :=
  if ToBoolean (Some (JStr (trim aiQuery)))
  then Some (JObj [("query", JStr aiQuery)])
  else None.

(** * Properties *)

(** ** The pure layer *)

Lemma Ok_inj {A} (a b : A) : Ok a = Ok b -> a = b.
Proof. intros H. injection H as H. exact H. Qed.

Ltac inv H := apply Ok_inj in H; subst.

(** Peel one [x <- r ;; k] off a computation known to return. *)
Ltac bind_ok H :=
  match type of H with
  | rbind ?r _ = Ok _ =>
      let E := fresh "E" in
      destruct r eqn:E; [cbn [rbind] in H | discriminate H]
  end.

Lemma orR_Ok (a b : bool) : orR (Ok a) (Ok b) = Ok (a || b).
Proof. destruct a; reflexivity. Qed.

Lemma toLowerCase_empty (s : string) : toLowerCase s = "" -> s = "".
Proof. destruct s; simpl; [reflexivity | discriminate]. Qed.

Lemma includes_empty_text (sub : string) : sub <> "" -> includes "" sub = false.
Proof. destruct sub; [congruence | reflexivity]. Qed.

Lemma firstn_le {A} (n : nat) (l : list A) : List.length (firstn n l) <= n.
Proof. rewrite length_firstn. apply Nat.le_min_l. Qed.

Lemma In_firstn {A} (n : nat) (l : list A) (x : A) : In x (firstn n l) -> In x l.
Proof.
  intros H. rewrite <- (firstn_skipn n l). apply in_or_app. left. exact H.
Qed.

(** A filter whose callback never throws is the list filter. *)
Lemma filterR_pure (f : JsValue -> Result bool) (g : JsValue -> bool) (l : list JsValue) :
  (forall x, In x l -> f x = Ok (g x)) -> filterR f l = Ok (filter g l).
Proof.
  induction l as [|x l IH]; intros Hf; simpl.
  - reflexivity.
  - rewrite (Hf x (or_introl eq_refl)). cbn [rbind].
    rewrite IH by (intros y Hy; apply Hf; right; exact Hy).
    reflexivity.
Qed.

(** On a record, one link of the callback is the case-insensitive test on
    the text of the field. *)
Lemma field_includes_record (props : list (string * JsValue)) (k q : string) :
  q <> "" ->
  text_or_absent (assoc k props) = true ->
  field_includes (JObj props) k (toLowerCase q) =
  Ok (contains_ci (text_of (JObj props) k) q).
Proof.
  intros Hq Ht. unfold field_includes, contains_ci, text_of. cbn [get rbind].
  assert (Hl : includes "" (toLowerCase q) = false).
  { apply includes_empty_text. intros E. apply Hq, toLowerCase_empty, E. }
  destruct (assoc k props) as [[ | | | | | ]|]; simpl in Ht;
    try discriminate; cbn [rbind call_toLowerCase toLowerCase];
    rewrite ?Hl; reflexivity.
Qed.

Lemma is_product_fields (p : JsValue) :
  is_product p = true ->
  exists props, p = JObj props /\
    text_or_absent (assoc "name" props) = true /\
    text_or_absent (assoc "category" props) = true /\
    text_or_absent (assoc "sku" props) = true /\
    text_or_absent (assoc "manufacturer" props) = true /\
    scalar_or_absent (assoc "price" props) = true.
Proof.
  destruct p; simpl; try discriminate. intros H.
  repeat (apply andb_true_iff in H; destruct H as [H ?]).
  exists props. auto 10.
Qed.

(** The callback of the search without a credential is the matcher of the
    specification. *)
Lemma matcher_four_fields (q : string) (p : JsValue) :
  q <> "" -> is_product p = true ->
  matches_name_category_sku_manufacturer (toLowerCase q) p = Ok (spec_matcher q p).
Proof.
  intros Hq Hp. destruct (is_product_fields p Hp) as (props & -> & Hn & Hc & Hs & Hm & _).
  unfold matches_name_category_sku_manufacturer, spec_matcher.
  rewrite !field_includes_record by assumption.
  rewrite !orR_Ok. f_equal.
  rewrite <- !orb_assoc. f_equal. f_equal. apply orb_comm.
Qed.

(** The callback of the two searches of the model path looks at three
    fields. *)
Lemma matcher_three_fields (q : string) (p : JsValue) :
  q <> "" -> is_product p = true ->
  matches_name_category_sku (toLowerCase q) p = Ok (three_field_matcher q p).
Proof.
  intros Hq Hp. destruct (is_product_fields p Hp) as (props & -> & Hn & Hc & Hs & Hm & _).
  unfold matches_name_category_sku, three_field_matcher.
  rewrite !field_includes_record by assumption.
  rewrite !orR_Ok. reflexivity.
Qed.

Lemma filter_products_four (q : string) (ps : list JsValue) :
  q <> "" -> forallb is_product ps = true ->
  call_filter (JArr ps) (matches_name_category_sku_manufacturer (toLowerCase q)) =
  Ok (filter (spec_matcher q) ps).
Proof.
  intros Hq Hps. simpl. apply filterR_pure. intros x Hx.
  apply matcher_four_fields; [assumption|].
  rewrite forallb_forall in Hps. auto.
Qed.

Lemma filter_products_three (q : string) (ps : list JsValue) :
  q <> "" -> forallb is_product ps = true ->
  call_filter (JArr ps) (matches_name_category_sku (toLowerCase q)) =
  Ok (filter (three_field_matcher q) ps).
Proof.
  intros Hq Hps. simpl. apply filterR_pure. intros x Hx.
  apply matcher_three_fields; [assumption|].
  rewrite forallb_forall in Hps. auto.
Qed.

(** ** The responses of the three success paths *)

Lemma mapSkus_length (products aiResponse : JsValue) (l : list JsValue) :
  mapSkus products aiResponse = Ok l -> List.length l <= 5.
Proof.
  unfold mapSkus. intros H. bind_ok H.
  destruct (ToBoolean a).
  - bind_ok H. inv H. apply firstn_le.
  - inv H. simpl. lia.
Qed.

Lemma replyResponse_success (query : option JsValue) (products aiResponse : JsValue)
      (r : Response) :
  replyResponse query products aiResponse = Ok r ->
  exists answer l suggestions,
    r = success answer l (or_else suggestions (JArr default_suggestions)) /\
    List.length l <= 5 /\
    get (Some aiResponse) "suggestions" = Ok suggestions.
Proof.
  unfold replyResponse. intros H.
  bind_ok H. rename a into mapped.
  pose proof (mapSkus_length _ _ _ E) as Hm.
  bind_ok H. rename a into recommended.
  bind_ok H. bind_ok H. inv H.
  eexists _, recommended, _. split; [reflexivity|]. split; [|reflexivity].
  destruct (Nat.eqb (List.length mapped) 0) eqn:Hz.
  - apply Nat.eqb_eq in Hz. destruct mapped; [|discriminate Hz].
    bind_ok E0. bind_ok E0. inv E0. cbn [app]. apply firstn_le.
  - inv E0. exact Hm.
Qed.

Lemma modelErrorResponse_success (query : option JsValue) (products : JsValue) (r : Response) :
  modelErrorResponse query products = Ok r ->
  exists answer l,
    r = success answer l (JArr model_error_suggestions) /\ List.length l <= 5.
Proof.
  unfold modelErrorResponse. intros H.
  bind_ok H. bind_ok H. bind_ok H. bind_ok H. inv H.
  eexists _, _. split; [reflexivity | apply firstn_le].
Qed.

Lemma noCredentialResponse_success (query : option JsValue) (products : JsValue) (r : Response) :
  noCredentialResponse query products = Ok r ->
  exists answer l,
    r = success answer l (JArr no_credential_suggestions) /\ List.length l <= 5.
Proof.
  unfold noCredentialResponse. intros H.
  bind_ok H. bind_ok H. bind_ok H. bind_ok H. inv H.
  eexists _, _. split; [reflexivity | apply firstn_le].
Qed.

Lemma POST_outcome (w : World) : Outcome w (response_of w) (calls_of w).
Proof.
  unfold response_of, calls_of, POST, handle, bind, lift, ret, try_catch, attempt.
  destruct (request_json w) as [body|] eqn:Hb;
    [|apply unreadable; unfold accepted; rewrite Hb; reflexivity].
  destruct (get (Some body) "query") as [query|] eqn:Hq;
    [|apply unreadable; unfold accepted; rewrite Hb, Hq; reflexivity].
  destruct (ToBoolean query) eqn:Ht; cbn [negb];
    [|apply invalid_input; unfold accepted; rewrite Hb, Hq; exact Ht].
  assert (Hacc : accepted w = true) by (unfold accepted; rewrite Hb, Hq; exact Ht).
  set (products := match fetch_products w with Ok v => v | Throw _ => JArr [] end).
  destruct (fetch_products w) as [served|];
    (destruct (credential_configured w) eqn:Hkey;
     [ unfold modelPath, bind, lift, attempt;
       destruct (buildPrompt query products) as [prompt|] eqn:Hp;
       [ destruct (generateContent w prompt) as [text|] eqn:Hg;
         [ destruct (replyResponse query products (parseReply (JSON_parse w) text))
             as [r|] eqn:Hr | ] | ]
     | ]).
  all: cbn [app fst snd]; fold products.
  all: try rewrite Hp; try rewrite Hg; try rewrite Hr; cbn [app fst snd].
  all: try match goal with
       | |- context [modelErrorResponse ?q ?p] =>
           destruct (modelErrorResponse q p) as [r'|] eqn:Hm;
           [ destruct (modelErrorResponse_success _ _ _ Hm) as (a & l & -> & Hl) | ]
       | |- context [noCredentialResponse ?q ?p] =>
           destruct (noCredentialResponse q p) as [r'|] eqn:Hn;
           [ destruct (noCredentialResponse_success _ _ _ Hn) as (a & l & -> & Hl) | ]
       end.
  all: cbn [fst snd].
  all: try (apply failure; assumption).
  all: try (apply model_error; assumption).
  all: try (apply no_credential; assumption).
  all: destruct (replyResponse_success _ _ _ _ Hr) as (a & l & sug & -> & Hl & Hs);
       eapply model_reply; eassumption.
Qed.

Lemma accepted_query (w : World) (props : list (string * JsValue)) (q : string) :
  request_json w = Ok (JObj props) ->
  assoc "query" props = Some (JStr q) ->
  q <> "" ->
  accepted w = true.
Proof.
  intros Hb Hq Hne. unfold accepted. rewrite Hb. cbn [get]. rewrite Hq.
  cbn [ToBoolean]. destruct (String.eqb_spec q ""); [contradiction | reflexivity].
Qed.

(** ** C1: the guard on the query *)

(** C1, as stated, fails: the query of one blank is whitespace only, yet
    the request is served with status 200 and the catalog was fetched. *)
Lemma C1_blank_query_is_served :
  let w := world0 (JStr " ") None (Throw Rejected) in
  whitespace_only " " = true /\
  query_of w = Some (JStr " ") /\
  status (response_of w) = 200 /\
  calls_of w = [CatalogFetch].
Proof. vm_compute. repeat split. Qed.

(** C1, amended: a request whose body has no query, or has the empty
    string as its query, gets the InvalidInput response (status 400) and no
    upstream call is attempted, neither the catalog fetch nor the model
    call.  A query that is a non-empty string passes the guard, blanks
    included: the catalog fetch is attempted and the response is not
    InvalidInput. *)
Theorem C1_missing_or_empty_query_is_invalid_input
        (w : World) (props : list (string * JsValue)) :
  request_json w = Ok (JObj props) ->
  (assoc "query" props = None \/ assoc "query" props = Some (JStr "") ->
   POST w = (invalidInputResponse, []) /\ status invalidInputResponse = 400) /\
  (forall q, assoc "query" props = Some (JStr q) -> q <> "" ->
   status (response_of w) <> 400 /\ exists log, calls_of w = CatalogFetch :: log).
Proof.
  intros Hb. split.
  - intros Hq. split; [|reflexivity].
    unfold POST, handle, bind, lift, ret. rewrite Hb. cbn [get].
    destruct Hq as [-> | ->]; reflexivity.
  - intros q Hq Hne.
    pose proof (accepted_query w props q Hb Hq Hne) as Hacc.
    destruct (POST_outcome w); try congruence;
      (split; [cbn; discriminate | eexists; reflexivity]).
Qed.

Lemma C1_missing_or_empty_query_witness :
  POST (world0 (JStr "") (Some "key") (Ok "hello")) = (invalidInputResponse, []) /\
  status invalidInputResponse = 400.
Proof.
  apply (proj1 (C1_missing_or_empty_query_is_invalid_input
                  (world0 (JStr "") (Some "key") (Ok "hello"))
                  [("query", JStr "")] eq_refl)).
  right. reflexivity.
Defined.

(** ** C5: the bodies of the failures *)

(** C5, as stated, fails on both failures.  The InvalidInput response has
    a body of one field, the error: no answer, no recommendedProducts, no
    relatedSuggestions.  The response to a request that cannot be
    processed, here a query that is a number, has the four fields, but its
    relatedSuggestions are three strings and not the empty list. *)
Lemma C5_invalid_input_body_is_error_only :
  let r := response_of (world0 (JStr "") None (Throw Rejected)) in
  let r' := response_of (world0 (JNum (Num "5")) None (Throw Rejected)) in
  (status r = 400 /\
   body r = [("error", JStr "Query is required")] /\
   field r "answer" = None /\
   field r "recommendedProducts" = None /\
   field r "relatedSuggestions" = None) /\
  (status r' = 500 /\
   field r' "relatedSuggestions" =
     Some (JArr [JStr "Try a simpler search"; JStr "Contact support";
                 JStr "Browse categories"]) /\
   field r' "relatedSuggestions" <> Some (JArr [])).
Proof. vm_compute. repeat split. discriminate. Qed.

(** C5, amended: a response is one of three.  With status 400 its body is
    exactly the error field.  With status 500 its body is the error, an
    apology as the answer, no recommended products and three fixed
    suggestions.  Otherwise the status is 200 and the body is answer,
    recommendedProducts and relatedSuggestions, without an error field. *)
Theorem C5_failure_bodies (w : World) :
  let r := response_of w in
  (status r = 400 /\
   body r = [("error", JStr "Query is required")]) \/
  (status r = 500 /\
   body r = [("error", JStr "Failed to process query");
             ("answer", JStr "Sorry, I encountered an error. Please try again.");
             ("recommendedProducts", JArr []);
             ("relatedSuggestions",
              JArr [JStr "Try a simpler search"; JStr "Contact support";
                    JStr "Browse categories"])]) \/
  (status r = 200 /\
   exists answer l suggestions,
     body r = [("answer", answer);
               ("recommendedProducts", JArr l);
               ("relatedSuggestions", suggestions)]).
Proof.
  cbv zeta. destruct (POST_outcome w).
  - left. split; reflexivity.
  - right; left. split; reflexivity.
  - right; left. split; reflexivity.
  - right; right. split; [reflexivity|]. eexists _, _, _. reflexivity.
  - right; right. split; [reflexivity|]. eexists _, _, _. reflexivity.
  - right; right. split; [reflexivity|]. eexists _, _, _. reflexivity.
Qed.

(** ** C10: at most five recommendations *)

(** C10: a response with status 200 has a list of at most five products as
    its recommendedProducts, whichever path produced it. *)
Theorem C10_at_most_five_recommended (w : World) :
  status (response_of w) = 200 ->
  exists l,
    field (response_of w) "recommendedProducts" = Some (JArr l) /\
    List.length l <= 5.
Proof.
  intros Hs. destruct (POST_outcome w); try discriminate Hs;
    (eexists; split; [reflexivity | assumption]).
Qed.

Lemma C10_at_most_five_recommended_witness :
  exists l,
    field (response_of (world0 (JStr " ") (Some "key") (Ok "All of them")))
          "recommendedProducts" = Some (JArr l) /\
    List.length l <= 5.
Proof.
  apply (C10_at_most_five_recommended (world0 (JStr " ") (Some "key") (Ok "All of them"))).
  reflexivity.
Defined.

(** ** C7: the suggestions *)

Lemma success_suggestions (answer : JsValue) (l : list JsValue) (suggestions : JsValue) :
  field (success answer l suggestions) "relatedSuggestions" = Some suggestions.
Proof. reflexivity. Qed.

Lemma or_else_truthy (s d : JsValue) : ToBoolean (Some s) = true -> or_else (Some s) d = s.
Proof. intros H. unfold or_else. rewrite H. reflexivity. Qed.

Lemma or_else_falsy (v : option JsValue) (d : JsValue) : ToBoolean v = false -> or_else v d = d.
Proof. intros H. unfold or_else. destruct v; [rewrite H|]; reflexivity. Qed.

(** C7, as stated, fails: the suggestions of the model are passed on as
    they come, here a list of one; and the InvalidInput response has no
    suggestions at all. *)
Lemma C7_single_suggestion_passed_on :
  let r := response_of one_suggestion_world in
  let r' := response_of (world0 (JStr "") None (Throw Rejected)) in
  (status r = 200 /\
   field r "relatedSuggestions" = Some (JArr [JStr "Ask about pumps"])) /\
  (status r' = 400 /\ field r' "relatedSuggestions" = None).
Proof. vm_compute. repeat split. Qed.


(** ** C8: the catalog is down *)

(** C8: when the catalog fetch fails on a request with a non-empty query,
    the handler goes on with an empty collection: the response has status
    200 and the three fields, its recommendedProducts is the empty list,
    and the fetch was the first upstream call attempted. *)
Theorem C8_catalog_failure_degrades
        (w : World) (props : list (string * JsValue)) (q : string) (e : Exn) :
  request_json w = Ok (JObj props) ->
  assoc "query" props = Some (JStr q) ->
  q <> "" ->
  fetch_products w = Throw e ->
  collection w = JArr [] /\
  exists answer suggestions log,
    response_of w = success answer [] suggestions /\
    calls_of w = CatalogFetch :: log.
Proof.
  intros Hb Hq Hne Hf. split; [unfold collection; rewrite Hf; reflexivity|].
  assert (Ht : ToBoolean (Some (JStr q)) = true).
  { cbn. destruct (String.eqb_spec q ""); [contradiction | reflexivity]. }
  unfold response_of, calls_of, POST, handle, bind, lift, ret, try_catch, attempt.
  rewrite Hb. cbn [get]. rewrite Hq, Ht, Hf. cbn [negb app].
  destruct (credential_configured w).
  - unfold modelPath, bind, lift, attempt. cbn [buildPrompt ToString ToString_value rbind firstn mapR].
    destruct (generateContent w _) as [text|].
    + destruct (parseReply (JSON_parse w) text) as [ | b | n | s | elems | rprops ];
        unfold replyResponse, mapSkus; cbn [get rbind].
      1: cbn; eexists _, _, _; split; reflexivity.
      1-4: cbn; eexists _, _, _; split; reflexivity.
      destruct (ToBoolean (assoc "productSkus" rprops));
        cbn; eexists _, _, _; split; reflexivity.
    + cbn. eexists _, _, _. split; reflexivity.
  - cbn. eexists _, _, _. split; reflexivity.
Qed.

Lemma C8_catalog_failure_degrades_witness :
  let w := {| request_json := Ok (JObj [("query", JStr "pump")]);
              fetch_products := Throw Rejected;
              GEMINI_API_KEY := Some "key";
              generateContent := fun _ => Ok "Sorry, no JSON today";
              JSON_parse := fun _ => Throw SyntaxError |} in
  collection w = JArr [] /\
  exists answer suggestions log,
    response_of w = success answer [] suggestions /\
    calls_of w = CatalogFetch :: log.
Proof.
  cbv zeta.
  apply (C8_catalog_failure_degrades _ [("query", JStr "pump")] "pump" Rejected);
    [reflexivity | reflexivity | discriminate | reflexivity].
Defined.

(** ** C3: the search without a credential *)

Lemma fetch_step (w : World) (log : list Upstream) :
  try_catch (attempt CatalogFetch (fetch_products w)) (fun _ => ret (JArr [])) log =
  (Ok (collection w), (log ++ [CatalogFetch])%list).
Proof.
  unfold try_catch, attempt, ret, collection. destruct (fetch_products w); reflexivity.
Qed.

(** Past the guard, the handler is the fetch followed by one of the two
    branches of line 27. *)
Lemma handle_accepted (w : World) (props : list (string * JsValue)) (q : string) :
  request_json w = Ok (JObj props) ->
  assoc "query" props = Some (JStr q) ->
  q <> "" ->
  handle w [] =
  (if credential_configured w then
     try_catch (modelPath w (Some (JStr q)) (collection w))
               (fun _ => lift (modelErrorResponse (Some (JStr q)) (collection w)))
   else lift (noCredentialResponse (Some (JStr q)) (collection w))) [CatalogFetch].
Proof.
  intros Hb Hq Hne. unfold handle, bind at 1 2 3, lift at 1 2.
  rewrite Hb. cbn [get]. rewrite Hq. cbn [ToBoolean].
  destruct (String.eqb_spec q ""); [contradiction|]. cbn [negb].
  rewrite fetch_step. reflexivity.
Qed.

Lemma text_is_scalar (v : option JsValue) :
  text_or_absent v = true -> scalar_or_absent v = true.
Proof. destruct v as [[ | | | | | ]|]; simpl; congruence. Qed.

Lemma render_scalar (props : list (string * JsValue)) (k : string) :
  scalar_or_absent (assoc k props) = true ->
  ToString (assoc k props) = Ok (render (JObj props) k).
Proof.
  unfold render. destruct (assoc k props) as [[ | [|] | | | | ]|]; simpl;
    try discriminate; reflexivity.
Qed.

Lemma firstn_filter_products (n : nat) (f : JsValue -> bool) (ps : list JsValue) (top : JsValue)
      (rest : list JsValue) :
  forallb is_product ps = true ->
  firstn n (filter f ps) = top :: rest ->
  is_product top = true.
Proof.
  intros Hps Hf. rewrite forallb_forall in Hps. apply Hps.
  assert (Hin : In top (firstn n (filter f ps))) by (rewrite Hf; left; reflexivity).
  apply In_firstn, filter_In in Hin. tauto.
Qed.

Lemma noCredentialResponse_products (q : string) (ps : list JsValue) :
  q <> "" -> forallb is_product ps = true ->
  noCredentialResponse (Some (JStr q)) (JArr ps) =
  let matches := firstn 5 (filter (spec_matcher q) ps) in
  Ok (success (JStr (no_credential_answer q matches)) matches (JArr no_credential_suggestions)).
Proof.
  intros Hne Hps. unfold noCredentialResponse. cbn [call_toLowerCase rbind].
  rewrite filter_products_four by assumption.
  cbn [rbind ToString ToString_value]. cbv zeta. unfold no_credential_answer.
  destruct (firstn 5 (filter (spec_matcher q) ps)) as [|top rest] eqn:Hm.
  - reflexivity.
  - destruct (is_product_fields top (firstn_filter_products _ _ _ _ _ Hps Hm))
      as (props & -> & Hn & _ & Hs & _ & Hp).
    cbn [get rbind].
    rewrite (render_scalar props "name") by (apply text_is_scalar; assumption).
    cbn [rbind].
    rewrite (render_scalar props "sku") by (apply text_is_scalar; assumption).
    cbn [rbind].
    rewrite (render_scalar props "price") by assumption.
    reflexivity.
Qed.

(** C3: without a credential, for a non-empty query and a collection of
    product records, recommendedProducts is the records whose name,
    category, manufacturer or SKU contains the query case-insensitively,
    in the order of the collection, cut after the fifth; the answer is the
    template with the number of products returned, the query and, when
    there is a match, the name, SKU and price of the first one; and only
    the catalog was called. *)
Theorem C3_no_credential_search
        (w : World) (props : list (string * JsValue)) (q : string) (ps : list JsValue) :
  request_json w = Ok (JObj props) ->
  assoc "query" props = Some (JStr q) ->
  q <> "" ->
  credential_configured w = false ->
  collection w = JArr ps ->
  forallb is_product ps = true ->
  let matches := firstn 5 (filter (spec_matcher q) ps) in
  POST w =
  (success (JStr (no_credential_answer q matches)) matches (JArr no_credential_suggestions),
   [CatalogFetch]).
Proof.
  intros Hb Hq Hne Hkey Hc Hps. cbv zeta. unfold POST.
  rewrite (handle_accepted w props q Hb Hq Hne), Hkey, Hc.
  unfold lift. rewrite noCredentialResponse_products by assumption.
  reflexivity.
Qed.

Lemma C3_no_credential_search_witness :
  POST (world0 (JStr "whirlpool") None (Throw Rejected)) =
  (success
     (JStr ("Found 3 products matching " ++ dquote ++ "whirlpool" ++ dquote
            ++ ". Top result: Whirlpool Water Filter (WP-001) - $45.99"))
     [product "WP-001" "Whirlpool Water Filter" "Filters" "Whirlpool" "45.99";
      product "WP-005" "Whirlpool Agitator" "Washer Parts" "Whirlpool" "78.5";
      product "W10-006" "Dishwasher Drain Pump" "Dishwasher Parts" "Whirlpool" "64"]
     (JArr no_credential_suggestions),
   [CatalogFetch]).
Proof.
  apply (C3_no_credential_search (world0 (JStr "whirlpool") None (Throw Rejected))
           [("query", JStr "whirlpool")] "whirlpool" sample_catalog);
    [reflexivity | reflexivity | discriminate | reflexivity | reflexivity | reflexivity].
Defined.

(** ** C2: a reply that cannot be parsed *)

Lemma parseReply_unparseable (w : World) (text : string) :
  unparseable w text -> parseReply (JSON_parse w) text = textReply text.
Proof.
  intros Hu. unfold parseReply, unparseable in *.
  destruct (jsonMatch text) as [m|]; [|reflexivity].
  destruct (Hu m eq_refl) as [e ->]. reflexivity.
Qed.

(** No product is listed in an empty list of SKUs. *)
Lemma mapSkus_textReply (ps : list JsValue) (text : string) :
  forallb is_product ps = true ->
  mapSkus (JArr ps) (textReply text) = Ok [].
Proof.
  intros Hps. unfold mapSkus, textReply. cbn [get assoc String.eqb Ascii.eqb Bool.eqb rbind ToBoolean].
  cbn [call_filter].
  rewrite (filterR_pure _ (fun _ => false)).
  - cbn [rbind]. replace (filter (fun _ => false) ps) with (@nil JsValue); [reflexivity|].
    clear. induction ps; simpl; auto.
  - intros p Hp. rewrite forallb_forall in Hps.
    destruct (is_product_fields p (Hps p Hp)) as (props & -> & _). reflexivity.
Qed.

Lemma replyResponse_textReply (q : string) (ps : list JsValue) (text : string) :
  q <> "" -> forallb is_product ps = true ->
  replyResponse (Some (JStr q)) (JArr ps) (textReply text) =
  let matches := firstn 5 (filter (three_field_matcher q) ps) in
  Ok (success (text_answer text (List.length matches)) matches (JArr [])).
Proof.
  intros Hne Hps. unfold replyResponse.
  rewrite mapSkus_textReply by assumption. cbn [rbind List.length Nat.eqb call_toLowerCase].
  rewrite filter_products_three by assumption. cbn [rbind app].
  unfold textReply. cbn [get assoc String.eqb Ascii.eqb Bool.eqb rbind].
  cbv zeta. unfold text_answer, or_else. cbn [ToBoolean].
  destruct (String.eqb (substring 0 500 text) ""); reflexivity.
Qed.

Lemma three_fields_among_four (q : string) (p : JsValue) :
  three_field_matcher q p = true -> spec_matcher q p = true.
Proof.
  unfold three_field_matcher, spec_matcher.
  destruct (contains_ci (text_of p "name") q), (contains_ci (text_of p "category") q),
    (contains_ci (text_of p "manufacturer") q), (contains_ci (text_of p "sku") q);
    simpl; auto.
Qed.

(** What the handler does with a reply it cannot parse, field by field:
    the search of the model path (three fields) fills the recommendations,
    and the suggestions stay the empty list of the text reply. *)
Lemma unparseable_reply_response
      (w : World) (props : list (string * JsValue)) (q : string) (ps : list JsValue)
      (prompt : Prompt) (text : string) :
  request_json w = Ok (JObj props) ->
  assoc "query" props = Some (JStr q) ->
  q <> "" ->
  credential_configured w = true ->
  collection w = JArr ps ->
  forallb is_product ps = true ->
  buildPrompt (Some (JStr q)) (JArr ps) = Ok prompt ->
  generateContent w prompt = Ok text ->
  unparseable w text ->
  let matches := firstn 5 (filter (three_field_matcher q) ps) in
  POST w =
  (success (text_answer text (List.length matches)) matches (JArr []),
   [CatalogFetch; ModelCall prompt]).
Proof.
  intros Hb Hq Hne Hkey Hc Hps Hp Hg Hu. cbv zeta. unfold POST.
  rewrite (handle_accepted w props q Hb Hq Hne), Hkey, Hc.
  unfold try_catch, modelPath, bind, lift, attempt.
  rewrite Hp, Hg, (parseReply_unparseable w text Hu).
  rewrite replyResponse_textReply by assumption. reflexivity.
Qed.

(** C2, as stated, fails: the reply has no JSON in it, yet the product
    whose name contains the query is recommended, and the suggestions are
    the empty list and not the default set. *)
Lemma C2_unparseable_reply_still_recommends :
  let w := world0 (JStr "Samsung") (Some "key") (Ok "I would pick the dryer belt.") in
  jsonMatch "I would pick the dryer belt." = None /\
  field (response_of w) "recommendedProducts" =
    Some (JArr [product "SM-004" "Samsung Dryer Belt" "Dryer Parts" "Samsung" "32.99"]) /\
  field (response_of w) "relatedSuggestions" = Some (JArr []) /\
  field (response_of w) "relatedSuggestions" <> Some (JArr default_suggestions).
Proof. vm_compute. repeat split. discriminate. Qed.

(** C2, amended: when the reply of the model cannot be parsed, the
    response is a success whose answer is the first 500 code units of the
    raw text (the sentence with the count when the text is empty) and
    whose recommendedProducts is not left empty but filled by the fallback
    search on the query: the first five, in the order of the collection, of
    the products the fallback selects; it selects every product whose
    name, category or SKU contains the query, and only products whose name,
    category, manufacturer or SKU does. *)
Theorem C2_unparseable_reply_falls_back_to_search
        (w : World) (props : list (string * JsValue)) (q : string) (ps : list JsValue)
        (prompt : Prompt) (text : string) :
  request_json w = Ok (JObj props) ->
  assoc "query" props = Some (JStr q) ->
  q <> "" ->
  credential_configured w = true ->
  collection w = JArr ps ->
  forallb is_product ps = true ->
  buildPrompt (Some (JStr q)) (JArr ps) = Ok prompt ->
  generateContent w prompt = Ok text ->
  unparseable w text ->
  exists selects suggestions,
    let matches := firstn 5 (filter selects ps) in
    response_of w = success (text_answer text (List.length matches)) matches suggestions /\
    (forall p, three_field_matcher q p = true -> selects p = true) /\
    (forall p, selects p = true -> spec_matcher q p = true).
Proof.
  intros Hb Hq Hne Hkey Hc Hps Hp Hg Hu.
  exists (three_field_matcher q), (JArr []). cbv zeta.
  split; [|split; [auto | apply three_fields_among_four]].
  unfold response_of.
  rewrite (unparseable_reply_response w props q ps prompt text) by assumption.
  reflexivity.
Qed.

Lemma C2_unparseable_reply_witness :
  let w := world0 (JStr "Samsung") (Some "key") (Ok "I would pick the dryer belt.") in
  exists selects suggestions,
    let matches := firstn 5 (filter selects sample_catalog) in
    response_of w =
      success (text_answer "I would pick the dryer belt." (List.length matches))
              matches suggestions /\
    (forall p, three_field_matcher "Samsung" p = true -> selects p = true) /\
    (forall p, selects p = true -> spec_matcher "Samsung" p = true).
Proof.
  cbv zeta.
  eapply (C2_unparseable_reply_falls_back_to_search
            (world0 (JStr "Samsung") (Some "key") (Ok "I would pick the dryer belt."))
            [("query", JStr "Samsung")] "Samsung" sample_catalog);
    [reflexivity | reflexivity | discriminate | reflexivity | reflexivity
    | reflexivity | reflexivity | reflexivity | ].
  intros m Hm. discriminate Hm.
Defined.

(** ** C4: the fields of the fallback search *)

Lemma modelErrorResponse_products (q : string) (ps : list JsValue) :
  q <> "" -> forallb is_product ps = true ->
  modelErrorResponse (Some (JStr q)) (JArr ps) =
  let matches := firstn 5 (filter (three_field_matcher q) ps) in
  Ok (success (JStr (model_error_answer q matches)) matches (JArr model_error_suggestions)).
Proof.
  intros Hne Hps. unfold modelErrorResponse. cbn [call_toLowerCase rbind].
  rewrite filter_products_three by assumption.
  cbn [rbind ToString ToString_value]. cbv zeta. unfold model_error_answer.
  destruct (firstn 5 (filter (three_field_matcher q) ps)) as [|top rest] eqn:Hm.
  - reflexivity.
  - destruct (is_product_fields top (firstn_filter_products _ _ _ _ _ Hps Hm))
      as (props & -> & Hn & _).
    cbn [get rbind].
    rewrite (render_scalar props "name") by (apply text_is_scalar; assumption).
    reflexivity.
Qed.

(** A prompt can always be built from a collection of product records. *)
Lemma buildPrompt_products (q : string) (ps : list JsValue) :
  forallb is_product ps = true ->
  exists prompt, buildPrompt (Some (JStr q)) (JArr ps) = Ok prompt.
Proof.
  intros Hps. unfold buildPrompt. cbn [ToString ToString_value rbind].
  assert (Hs : exists sample, mapR project (firstn 10 ps) = Ok sample).
  { assert (Hten : forall p, In p (firstn 10 ps) -> is_product p = true).
    { intros p Hp. rewrite forallb_forall in Hps. apply Hps, (In_firstn 10), Hp. }
    induction (firstn 10 ps) as [|p l IH]; [eexists; reflexivity|].
    destruct (is_product_fields p (Hten p (or_introl eq_refl))) as (props & -> & _).
    destruct IH as [sample Hsample]; [intros; apply Hten; right; assumption|].
    cbn [mapR project get rbind]. rewrite Hsample. eexists. reflexivity. }
  destruct Hs as [sample ->]. eexists. reflexivity.
Qed.

(** After a failed model call the search looks at name, category and SKU
    only, whatever the collection. *)
Lemma model_failure_search
      (w : World) (props : list (string * JsValue)) (q : string) (ps : list JsValue)
      (prompt : Prompt) (e : Exn) :
  request_json w = Ok (JObj props) ->
  assoc "query" props = Some (JStr q) ->
  q <> "" ->
  credential_configured w = true ->
  collection w = JArr ps ->
  forallb is_product ps = true ->
  buildPrompt (Some (JStr q)) (JArr ps) = Ok prompt ->
  generateContent w prompt = Throw e ->
  let matches := firstn 5 (filter (three_field_matcher q) ps) in
  POST w =
  (success (JStr (model_error_answer q matches)) matches (JArr model_error_suggestions),
   [CatalogFetch; ModelCall prompt]).
Proof.
  intros Hb Hq Hne Hkey Hc Hps Hp Hg. cbv zeta. unfold POST.
  rewrite (handle_accepted w props q Hb Hq Hne), Hkey, Hc.
  unfold try_catch, modelPath, bind, lift, attempt.
  rewrite Hp, Hg. rewrite modelErrorResponse_products by assumption. reflexivity.
Qed.

(** C4 at the scenario of the specification, a catalog of one product made
    by Whirlpool and the query Whirlpool.  Without a credential the
    product is found.  With a credential it is not, on any of the three
    ways down to the search: the model call fails, the reply cannot be
    parsed, the reply names no SKU.  The two filters of the model path
    leave the manufacturer out. *)
Theorem C4_model_path_search_skips_manufacturer :
  spec_matcher "Whirlpool" whirlpool_pump = true /\
  field (response_of (whirlpool_world None (Throw Rejected))) "recommendedProducts"
    = Some (JArr [whirlpool_pump]) /\
  field (response_of (whirlpool_world (Some "key") (Throw Rejected))) "recommendedProducts"
    = Some (JArr []) /\
  field (response_of (whirlpool_world (Some "key") (Ok "Try a Whirlpool part."))) "recommendedProducts"
    = Some (JArr []) /\
  field (response_of (whirlpool_world (Some "key") (Ok "{}"))) "recommendedProducts"
    = Some (JArr []).
Proof. vm_compute. repeat split. Qed.

(** ** C6: what is cut out of the reply *)

Lemma from_first_open_spec (s r : string) :
  from_first_open s = Some r <->
  exists pre rest, s = pre ++ r /\ occurs "{" pre = false /\ r = String "{" rest.
Proof.
  split.
  - induction s as [|c s IH]; simpl; [discriminate|].
    destruct (Ascii.eqb_spec c "{") as [->|Hc].
    + intros H. injection H as <-. exists "", s. auto.
    + intros H. destruct (IH H) as (pre & rest & -> & Hpre & ->).
      exists (String c pre), rest. simpl.
      destruct (Ascii.eqb_spec c "{"); [contradiction|]. auto.
  - intros (pre & rest & -> & Hpre & ->).
    induction pre as [|c pre IH]; simpl in *.
    + reflexivity.
    + apply orb_false_iff in Hpre. destruct Hpre as [Hc Hpre].
      rewrite Hc. auto.
Qed.

Lemma upto_last_close_none (s : string) :
  upto_last_close s = None <-> occurs "}" s = false.
Proof.
  induction s as [|c s IH]; simpl; [tauto|].
  destruct (upto_last_close s) as [r|].
  - split; [discriminate|]. intros H. apply orb_false_iff in H.
    destruct H as [_ H]. apply IH in H. discriminate H.
  - destruct (Ascii.eqb c "}"); simpl; [split; discriminate|].
    split; intros _; [apply IH|]; reflexivity.
Qed.

Lemma upto_last_close_spec (s r : string) :
  upto_last_close s = Some r <->
  exists mid post, s = mid ++ "}" ++ post /\ occurs "}" post = false /\ r = mid ++ "}".
Proof.
  split.
  - revert r. induction s as [|c s IH]; simpl; intros r; [discriminate|].
    destruct (upto_last_close s) as [r'|] eqn:Hs.
    + intros H. injection H as <-.
      destruct (IH r' eq_refl) as (mid & post & -> & Hpost & ->).
      exists (String c mid), post. auto.
    + destruct (Ascii.eqb_spec c "}") as [->|]; [|discriminate].
      intros H. injection H as <-. exists "", s.
      split; [reflexivity|]. split; [|reflexivity].
      apply upto_last_close_none. exact Hs.
  - intros (mid & post & -> & Hpost & ->).
    induction mid as [|c mid IH]; simpl.
    + apply upto_last_close_none in Hpost. rewrite Hpost. reflexivity.
    + simpl in IH. rewrite IH. reflexivity.
Qed.

Lemma jsonMatch_spec (text m : string) :
  jsonMatch text = Some m <->
  exists pre mid post,
    text = pre ++ "{" ++ mid ++ "}" ++ post /\
    occurs "{" pre = false /\
    occurs "}" post = false /\
    m = "{" ++ mid ++ "}".
Proof.
  unfold jsonMatch. split.
  - destruct (from_first_open text) as [[|c rest]|] eqn:Hf; try discriminate.
    apply from_first_open_spec in Hf.
    destruct Hf as (pre & rest' & -> & Hpre & Hr). injection Hr as -> ->.
    destruct (upto_last_close rest') as [r|] eqn:Hu; [|discriminate].
    apply upto_last_close_spec in Hu. destruct Hu as (mid & post & -> & Hpost & ->).
    intros H. injection H as <-. exists pre, mid, post. auto.
  - intros (pre & mid & post & -> & Hpre & Hpost & ->).
    assert (Hf : from_first_open (pre ++ "{" ++ mid ++ "}" ++ post)
                 = Some (String "{" (mid ++ "}" ++ post))).
    { apply from_first_open_spec. exists pre, (mid ++ "}" ++ post). auto. }
    rewrite Hf.
    assert (Hu : upto_last_close (mid ++ "}" ++ post) = Some (mid ++ "}")).
    { apply upto_last_close_spec. exists mid, post. auto. }
    rewrite Hu. reflexivity.
Qed.

(** C6, as stated, fails: the text has two objects; its first balanced
    substring is the first of them, but what is cut out and handed to
    [JSON.parse] runs on to the end of the second, so the reply that a
    parser of the first object would have read is lost. *)
Lemma C6_two_objects_cut_as_one :
  let text := "Either {} or {} will do" in
  first_balanced text = Some "{}" /\
  jsonMatch text = Some "{} or {}" /\
  empty_object_only "{}" = Ok (JObj []) /\
  parseReply empty_object_only text = textReply text.
Proof. vm_compute. repeat split. Qed.

(** C6, amended: what the handler cuts out of the raw text and parses is
    the substring from the first opening brace to the last closing brace
    after it, balanced or not; a text has such a substring exactly when a
    closing brace follows its first opening brace.  The parsed value is the
    reply; when there is nothing to cut or the parse throws, the reply is
    made of the raw text. *)
Theorem C6_cut_from_first_open_to_last_close
        (parse : string -> Result JsValue) (text : string) :
  (forall m,
     jsonMatch text = Some m <->
     exists pre mid post,
       text = pre ++ "{" ++ mid ++ "}" ++ post /\
       occurs "{" pre = false /\
       occurs "}" post = false /\
       m = "{" ++ mid ++ "}") /\
  parseReply parse text =
    match jsonMatch text with
    | Some m => match parse m with Ok reply => reply | Throw _ => textReply text end
    | None => textReply text
    end.
Proof.
  split; [intros m; apply jsonMatch_spec|].
  unfold parseReply. destruct (jsonMatch text); reflexivity.
Qed.

Lemma C6_cut_witness :
  jsonMatch "Either {} or {} will do" = Some "{} or {}".
Proof.
  apply (proj1 (C6_cut_from_first_open_to_last_close empty_object_only
                  "Either {} or {} will do")).
  exists "Either ", "} or {", " will do". repeat split.
Defined.

(** ** C9: SKUs back to products *)

(** [SameValueZero] holds only between a primitive and itself. *)
Lemma SameValueZero_eq (x : option JsValue) (y : JsValue) :
  SameValueZero x y = true -> x = Some y /\ SameValueZero (Some y) y = true.
Proof.
  destruct x as [[ | a | [a] | a | | ]|], y as [ | b | [b] | b | | ]; simpl;
    try discriminate; intros H.
  - auto.
  - apply Bool.eqb_prop in H. subst. split; [reflexivity | apply Bool.eqb_reflx].
  - apply String.eqb_eq in H. subst. split; [reflexivity | apply String.eqb_refl].
  - apply String.eqb_eq in H. subst. split; [reflexivity | apply String.eqb_refl].
Qed.

Lemma get_sku (p : JsValue) : p <> JNull -> get (Some p) "sku" = Ok (sku_of p).
Proof. intros H. destruct p; simpl; try reflexivity. contradiction. Qed.

(** With a list of SKUs in the reply, the mapping is the list filter on
    membership, cut after the fifth product. *)
Lemma mapSkus_listed (ps skus : list JsValue) (reply : JsValue) :
  (forall p, In p ps -> p <> JNull) ->
  get (Some reply) "productSkus" = Ok (Some (JArr skus)) ->
  mapSkus (JArr ps) reply = Ok (firstn 5 (filter (listed skus) ps)).
Proof.
  intros Hps Hskus. unfold mapSkus. rewrite Hskus. cbn [rbind ToBoolean call_filter].
  rewrite (filterR_pure _ (listed skus)); [reflexivity|].
  intros p Hp. cbn [rbind]. rewrite (get_sku p (Hps p Hp)). reflexivity.
Qed.

(** A narrower test that still accepts what the wider one let through
    among the first [n] selects the same first [n]. *)
Lemma firstn_filter_narrowed {A} (f g : A -> bool) (l : list A) (n : nat) :
  (forall x, g x = true -> f x = true) ->
  (forall x, In x (firstn n (filter f l)) -> g x = true) ->
  firstn n (filter g l) = firstn n (filter f l).
Proof.
  intros Hgf. revert n. induction l as [|x l IH]; intros n Hin; simpl in *.
  - reflexivity.
  - destruct (f x) eqn:Hfx.
    + destruct n as [|n]; [reflexivity|].
      simpl in Hin. rewrite (Hin x (or_introl eq_refl)). simpl.
      f_equal. apply IH. intros y Hy. apply Hin. right. exact Hy.
    + destruct (g x) eqn:Hgx; [rewrite (Hgf x Hgx) in Hfx; discriminate|].
      apply IH. exact Hin.
Qed.

Lemma listed_skus_of (l : list JsValue) (p : JsValue) (sku : JsValue) :
  In p l -> sku_of p = Some sku -> In sku (skus_of l).
Proof.
  intros Hp Hs. unfold skus_of. apply in_flat_map. exists p.
  split; [assumption|]. rewrite Hs. left. reflexivity.
Qed.

Lemma skus_of_listed (l : list JsValue) (sku : JsValue) :
  In sku (skus_of l) -> exists p, In p l /\ sku_of p = Some sku.
Proof.
  unfold skus_of. intros H. apply in_flat_map in H. destruct H as (p & Hp & Hs).
  exists p. split; [assumption|].
  destruct (sku_of p) as [s|]; simpl in Hs; [|contradiction].
  destruct Hs as [->|[]]. reflexivity.
Qed.

Lemma remap_same_subset (ps skus : list JsValue) :
  let subset := firstn 5 (filter (listed skus) ps) in
  firstn 5 (filter (listed (skus_of subset)) ps) = subset.
Proof.
  cbv zeta. apply firstn_filter_narrowed.
  - intros p Hp. unfold listed in Hp. apply existsb_exists in Hp.
    destruct Hp as (sku & Hin & Hsame).
    apply SameValueZero_eq in Hsame. destruct Hsame as [Hsku _].
    apply skus_of_listed in Hin. destruct Hin as (p' & Hp' & Hsku').
    apply In_firstn, filter_In in Hp'. destruct Hp' as [_ Hl].
    unfold listed in *. congruence.
  - intros p Hp.
    assert (Hl : listed skus p = true).
    { apply In_firstn, filter_In in Hp. tauto. }
    unfold listed in Hl. apply existsb_exists in Hl.
    destruct Hl as (sku & _ & Hsame).
    apply SameValueZero_eq in Hsame. destruct Hsame as [Hsku Hrefl].
    unfold listed. apply existsb_exists. exists sku.
    split; [eapply listed_skus_of; eassumption|].
    rewrite Hsku. exact Hrefl.
Qed.

(** C9: for a collection and a list of SKUs in the reply, the mapping
    returns the products whose SKU is in the list, in the order of the
    collection, cut after the fifth.  Another reply with the same list of
    SKUs maps to the same products in the same order, and so does a reply
    that lists the SKUs of the products just returned: mapping again
    changes nothing. *)
Theorem C9_same_skus_same_products
        (ps skus : list JsValue) (reply reply' again : JsValue) :
  (forall p, In p ps -> p <> JNull) ->
  get (Some reply) "productSkus" = Ok (Some (JArr skus)) ->
  get (Some reply') "productSkus" = Ok (Some (JArr skus)) ->
  let subset := firstn 5 (filter (listed skus) ps) in
  get (Some again) "productSkus" = Ok (Some (JArr (skus_of subset))) ->
  mapSkus (JArr ps) reply = Ok subset /\
  mapSkus (JArr ps) reply' = Ok subset /\
  mapSkus (JArr ps) again = Ok subset.
Proof.
  intros Hps Hr Hr' subset Ha.
  rewrite (mapSkus_listed ps skus reply Hps Hr).
  rewrite (mapSkus_listed ps skus reply' Hps Hr').
  rewrite (mapSkus_listed ps (skus_of subset) again Hps Ha).
  unfold subset at 3. rewrite remap_same_subset. auto.
Qed.

Lemma C9_same_skus_same_products_witness :
  let skus := [JStr "LG-003"; JStr "NO-SUCH"; JStr "WP-001"] in
  let subset := [product "WP-001" "Whirlpool Water Filter" "Filters" "Whirlpool" "45.99";
                 product "LG-003" "LG Dishwasher Pump" "Dishwasher Parts" "LG" "125.5"] in
  mapSkus (JArr sample_catalog) (JObj [("productSkus", JArr skus)]) = Ok subset /\
  mapSkus (JArr sample_catalog)
          (JObj [("answer", JStr "Two parts fit."); ("productSkus", JArr skus)]) = Ok subset /\
  mapSkus (JArr sample_catalog)
          (JObj [("productSkus", JArr [JStr "WP-001"; JStr "LG-003"])]) = Ok subset.
Proof.
  cbv zeta.
  apply (C9_same_skus_same_products sample_catalog
           [JStr "LG-003"; JStr "NO-SUCH"; JStr "WP-001"]);
    [ intros p Hp; simpl in Hp; repeat destruct Hp as [<-|Hp]; try discriminate; contradiction
    | reflexivity | reflexivity | reflexivity ].
Defined.

(** ** The scenarios of the specification, run *)

(** One product made by Whirlpool, no credential: the answer counts one
    product and the product is the recommendation. *)
Example scenario_whirlpool_without_credential :
  POST (whirlpool_world None (Throw Rejected)) =
  (success
     (JStr ("Found 1 products matching " ++ dquote ++ "Whirlpool" ++ dquote
            ++ ". Top result: Dishwasher Drain Pump (W10-006) - $64"))
     [whirlpool_pump]
     (JArr no_credential_suggestions),
   [CatalogFetch]).
Proof. reflexivity. Qed.

(** Seven products all match a blank; five come back, and five is the
    count the answer reports. *)
Example scenario_cap_of_five :
  response_of (world0 (JStr " ") None (Throw Rejected)) =
  success
    (JStr ("Found 5 products matching " ++ dquote ++ " " ++ dquote
           ++ ". Top result: Whirlpool Water Filter (WP-001) - $45.99"))
    (firstn 5 sample_catalog)
    (JArr no_credential_suggestions).
Proof. reflexivity. Qed.

(** A query that is not a string passes the guard and breaks on
    [toLowerCase]: the catalog was fetched, the response is the failure. *)
Example scenario_numeric_query :
  POST (world0 (JNum (Num "5")) None (Throw Rejected)) = (failureResponse, [CatalogFetch]).
Proof. reflexivity. Qed.

(** A body of [null] cannot be destructured: failure, and no call made. *)
Example scenario_null_body :
  POST {| request_json := Ok JNull;
          fetch_products := Ok (JArr sample_catalog);
          GEMINI_API_KEY := None;
          generateContent := fun _ => Throw Rejected;
          JSON_parse := fun _ => Throw SyntaxError |} = (failureResponse, []).
Proof. reflexivity. Qed.

(** A reply that names SKUs: the products come back in the order of the
    catalog, not of the reply. *)
Example scenario_skus_in_catalog_order :
  mapSkus (JArr sample_catalog)
          (JObj [("productSkus", JArr [JStr "SM-004"; JStr "GE-002"])]) =
  Ok [product "GE-002" "GE Oven Heating Element" "Oven Parts" "GE" "89.99";
      product "SM-004" "Samsung Dryer Belt" "Dryer Parts" "Samsung" "32.99"].
Proof. reflexivity. Qed.

(** * More of the handler *)

(** ** The shape of a served request *)

Lemma accepted_body (w : World) :
  accepted w = true ->
  exists props,
    request_json w = Ok (JObj props) /\
    query_of w = assoc "query" props /\
    ToBoolean (query_of w) = true.
Proof.
  unfold accepted, query_of. destruct (request_json w) as [[ | | | | | props]|];
    simpl; try discriminate.
  intros H. exists props. auto.
Qed.

(** Past the guard the handler is [served]. *)
Lemma POST_served (w : World) : accepted w = true -> POST w = served w.
Proof.
  intros Hacc. destruct (accepted_body w Hacc) as (props & Hb & Hq & Ht).
  unfold POST, handle, bind at 1 2 3, lift at 1 2, served.
  rewrite Hb. cbn [get]. rewrite <- Hq, Ht. cbn [negb]. rewrite fetch_step.
  cbn [app]. set (query := query_of w). set (products := collection w).
  destruct (credential_configured w).
  - unfold try_catch, modelPath, bind, lift, attempt.
    destruct (buildPrompt query products) as [prompt|].
    + cbn [app]. destruct (generateContent w prompt) as [text|].
      * destruct (replyResponse query products (parseReply (JSON_parse w) text));
          [reflexivity|].
        destruct (modelErrorResponse query products); reflexivity.
      * destruct (modelErrorResponse query products); reflexivity.
    + destruct (modelErrorResponse query products); reflexivity.
  - unfold lift. destruct (noCredentialResponse query products); reflexivity.
Qed.

(** ** C7: the suggestions, path by path *)

(** C7, amended: the InvalidInput response, given for a missing or falsy
    query, has no relatedSuggestions.  A response with status 500 has the
    three fixed strings of the failure.  Without a credential a response
    with status 200 has the three fixed strings of that search.  With a
    credential, when the reply of the model is not used (the prompt cannot
    be built, the model call fails, or the handling of the reply throws) a
    response with status 200 has the three fixed strings of the
    model-error handler.  When the reply is parsed and handled to the
    return, relatedSuggestions is the suggestions member of the reply as
    it is, whatever its size, when that member is truthy, and the three
    default strings when it is missing or falsy.  Each fixed pool has
    exactly three strings.  Nothing is said about a reply that could not
    be parsed. *)
Theorem C7_suggestions_by_path (w : World) :
  let r := response_of w in
  (forall props,
     request_json w = Ok (JObj props) ->
     ToBoolean (assoc "query" props) = false ->
     r = invalidInputResponse /\ field r "relatedSuggestions" = None) /\
  (status r = 500 ->
   field r "relatedSuggestions" = Some (JArr failure_suggestions)) /\
  (credential_configured w = false ->
   status r = 200 ->
   field r "relatedSuggestions" = Some (JArr no_credential_suggestions)) /\
  (credential_configured w = true ->
   status r = 200 ->
   model_reply_unused w ->
   field r "relatedSuggestions" = Some (JArr model_error_suggestions)) /\
  (forall prompt text m reply handled,
     accepted w = true ->
     credential_configured w = true ->
     buildPrompt (query_of w) (collection w) = Ok prompt ->
     generateContent w prompt = Ok text ->
     jsonMatch text = Some m ->
     JSON_parse w m = Ok reply ->
     replyResponse (query_of w) (collection w) reply = Ok handled ->
     r = handled /\
     (forall s,
        get (Some reply) "suggestions" = Ok (Some s) ->
        ToBoolean (Some s) = true ->
        field r "relatedSuggestions" = Some s) /\
     (forall v,
        get (Some reply) "suggestions" = Ok v ->
        ToBoolean v = false ->
        field r "relatedSuggestions" = Some (JArr default_suggestions))) /\
  (three_strings failure_suggestions /\
   three_strings no_credential_suggestions /\
   three_strings model_error_suggestions /\
   three_strings default_suggestions).
Proof.
  cbv zeta. split; [|split; [|split; [|split; [|split]]]].
  - intros props Hb Hq. unfold response_of, POST, handle, bind, lift, ret.
    rewrite Hb. cbn [get]. rewrite Hq. cbn [negb fst]. split; reflexivity.
  - intros Hs. destruct (POST_outcome w); try discriminate Hs; reflexivity.
  - intros Hkey Hs. destruct (POST_outcome w); try discriminate Hs;
      try congruence; reflexivity.
  - intros Hkey Hs Hunused.
    assert (Hacc : accepted w = true).
    { destruct (POST_outcome w); try assumption; discriminate Hs. }
    unfold response_of in *. rewrite (POST_served w Hacc) in *.
    unfold served, model_reply_unused in *. rewrite Hkey in *.
    assert (Hm : forall calls : list Upstream,
               status (fst (finish (modelErrorResponse (query_of w) (collection w)), calls))
               = 200 ->
               field (fst (finish (modelErrorResponse (query_of w) (collection w)), calls))
                     "relatedSuggestions" = Some (JArr model_error_suggestions)).
    { intros calls H. cbn [fst] in *.
      destruct (modelErrorResponse (query_of w) (collection w)) as [r|] eqn:E;
        [|discriminate H].
      destruct (modelErrorResponse_success _ _ _ E) as (a & l & -> & _). reflexivity. }
    destruct (buildPrompt (query_of w) (collection w)) as [prompt|]; [|apply Hm, Hs].
    destruct (generateContent w prompt) as [text|]; [|apply Hm, Hs].
    destruct (replyResponse _ _ _); [destruct Hunused | apply Hm, Hs].
  - intros prompt text m reply handled Hacc Hkey Hp Hg Hm Hparse Hr.
    assert (Hresp : response_of w = handled).
    { unfold response_of. rewrite (POST_served w Hacc). unfold served.
      rewrite Hkey, Hp, Hg. unfold parseReply. rewrite Hm, Hparse, Hr. reflexivity. }
    rewrite Hresp.
    destruct (replyResponse_success _ _ _ _ Hr) as (a & l & sug & -> & _ & Hsug).
    split; [reflexivity|]. split.
    + intros s Hs Ht. rewrite Hs in Hsug. apply Ok_inj in Hsug. subst sug.
      rewrite success_suggestions, or_else_truthy by exact Ht. reflexivity.
    + intros v Hv Ht. rewrite Hv in Hsug. apply Ok_inj in Hsug. subst sug.
      rewrite success_suggestions, or_else_falsy by exact Ht. reflexivity.
  - repeat split; do 3 eexists; reflexivity.
Qed.

Lemma C7_suggestions_by_path_witness :
  response_of one_suggestion_world =
    success (JStr "I found 2 products that might interest you.")
            [product "LG-003" "LG Dishwasher Pump" "Dishwasher Parts" "LG" "125.5";
             product "W10-006" "Dishwasher Drain Pump" "Dishwasher Parts" "Whirlpool" "64"]
            (JArr [JStr "Ask about pumps"]) /\
  (forall s,
     get (Some (JObj [("suggestions", JArr [JStr "Ask about pumps"])])) "suggestions"
       = Ok (Some s) ->
     ToBoolean (Some s) = true ->
     field (response_of one_suggestion_world) "relatedSuggestions" = Some s) /\
  (forall v,
     get (Some (JObj [("suggestions", JArr [JStr "Ask about pumps"])])) "suggestions" = Ok v ->
     ToBoolean v = false ->
     field (response_of one_suggestion_world) "relatedSuggestions"
       = Some (JArr default_suggestions)).
Proof.
  eapply (proj1 (proj2 (proj2 (proj2 (proj2 (C7_suggestions_by_path one_suggestion_world)))))
                _ ("Here you go: " ++ one_suggestion_text) one_suggestion_text
                (JObj [("suggestions", JArr [JStr "Ask about pumps"])]));
    reflexivity.
Defined.

(** ** X1: a request that cannot be read *)

(** X1: when the body of the request cannot be read as JSON, or is
    [null], the handler answers with the failure response, status 500, and
    calls nothing upstream. *)
Theorem X1_unreadable_request_fails_without_calls (w : World) :
  (exists e, request_json w = Throw e) \/ request_json w = Ok JNull ->
  POST w = (failureResponse, []) /\ status failureResponse = 500.
Proof.
  intros H. split; [|reflexivity].
  unfold POST, handle, bind, lift. destruct H as [[e ->] | ->]; reflexivity.
Qed.

Lemma X1_unreadable_request_witness :
  POST {| request_json := Throw SyntaxError;
          fetch_products := Ok (JArr sample_catalog);
          GEMINI_API_KEY := Some "key";
          generateContent := fun _ => Ok "{}";
          JSON_parse := empty_object_only |} = (failureResponse, []) /\
  status failureResponse = 500.
Proof.
  apply X1_unreadable_request_fails_without_calls. left. exists SyntaxError. reflexivity.
Defined.

(** ** X2: the calls of one request *)

Lemma calls_of_cases (w : World) :
  (calls_of w = [] /\ accepted w = false) \/
  (calls_of w = [CatalogFetch] /\ accepted w = true) \/
  (exists prompt,
     calls_of w = [CatalogFetch; ModelCall prompt] /\
     accepted w = true /\
     credential_configured w = true /\
     buildPrompt (query_of w) (collection w) = Ok prompt).
Proof.
  destruct (accepted w) eqn:Hacc.
  - right. unfold calls_of. rewrite (POST_served w Hacc). unfold served.
    destruct (credential_configured w); [|left; auto].
    destruct (buildPrompt (query_of w) (collection w)) as [prompt|]; [|left; auto].
    right. exists prompt.
    destruct (generateContent w prompt) as [text|]; [|auto].
    destruct (replyResponse _ _ _); auto.
  - left. split; [|reflexivity].
    destruct (POST_outcome w); congruence.
Qed.

(** X2: a request makes no upstream call, or fetches the catalog once, or
    fetches the catalog once and then asks the model once; it never asks
    the model without a credential, and never calls anything when the
    guard turns the request away. *)
Theorem X2_one_fetch_then_at_most_one_model_call (w : World) :
  (calls_of w = [] /\ accepted w = false) \/
  (calls_of w = [CatalogFetch] /\ accepted w = true) \/
  (exists prompt,
     calls_of w = [CatalogFetch; ModelCall prompt] /\
     accepted w = true /\
     credential_configured w = true /\
     buildPrompt (query_of w) (collection w) = Ok prompt).
Proof. exact (calls_of_cases w). Qed.

(** ** X3: a catalog that does not serve a list *)

Lemma buildPrompt_needs_array (query : option JsValue) (products : JsValue) (prompt : Prompt) :
  buildPrompt query products = Ok prompt -> exists elems, products = JArr elems.
Proof.
  unfold buildPrompt. intros H. bind_ok H.
  destruct products; try discriminate H. eexists. reflexivity.
Qed.

Lemma call_filter_needs_array (products : JsValue) (f : JsValue -> Result bool)
      (l : list JsValue) :
  call_filter products f = Ok l -> exists elems, products = JArr elems.
Proof. destruct products; simpl; try discriminate. eexists. reflexivity. Qed.

Lemma modelErrorResponse_needs_array (query : option JsValue) (products : JsValue)
      (r : Response) :
  modelErrorResponse query products = Ok r -> exists elems, products = JArr elems.
Proof.
  unfold modelErrorResponse. intros H. bind_ok H. bind_ok H.
  eapply call_filter_needs_array. eassumption.
Qed.

Lemma noCredentialResponse_needs_array (query : option JsValue) (products : JsValue)
      (r : Response) :
  noCredentialResponse query products = Ok r -> exists elems, products = JArr elems.
Proof.
  unfold noCredentialResponse. intros H. bind_ok H. bind_ok H.
  eapply call_filter_needs_array. eassumption.
Qed.

(** X3: when the catalog answers with JSON that is not an array (an error
    object, say), a request that passed the guard gets the failure
    response, status 500, with or without a credential; the catalog was
    fetched and the model was not asked. *)
Theorem X3_catalog_not_a_list_fails (w : World) :
  accepted w = true ->
  is_array (collection w) = false ->
  POST w = (failureResponse, [CatalogFetch]).
Proof.
  intros Hacc Hna. rewrite (POST_served w Hacc). unfold served.
  assert (Hno : forall elems, collection w <> JArr elems).
  { intros elems E. rewrite E in Hna. discriminate Hna. }
  assert (Hm : finish (modelErrorResponse (query_of w) (collection w)) = failureResponse).
  { destruct (modelErrorResponse _ _) as [r|] eqn:E; [|reflexivity].
    destruct (modelErrorResponse_needs_array _ _ _ E) as [elems He].
    destruct (Hno elems He). }
  assert (Hn : finish (noCredentialResponse (query_of w) (collection w)) = failureResponse).
  { destruct (noCredentialResponse _ _) as [r|] eqn:E; [|reflexivity].
    destruct (noCredentialResponse_needs_array _ _ _ E) as [elems He].
    destruct (Hno elems He). }
  destruct (credential_configured w); [|rewrite Hn; reflexivity].
  destruct (buildPrompt _ _) as [prompt|] eqn:E; [|rewrite Hm; reflexivity].
  destruct (buildPrompt_needs_array _ _ _ E) as [elems He].
  destruct (Hno elems He).
Qed.

Lemma X3_catalog_not_a_list_witness :
  POST {| request_json := Ok (JObj [("query", JStr "pump")]);
          fetch_products := Ok (JObj [("error", JStr "database unavailable")]);
          GEMINI_API_KEY := Some "key";
          generateContent := fun _ => Ok "{}";
          JSON_parse := empty_object_only |} = (failureResponse, [CatalogFetch]).
Proof.
  apply X3_catalog_not_a_list_fails; reflexivity.
Defined.

(** ** X4: a hole in the catalog *)

Lemma filterR_throws (f : JsValue -> Result bool) (l : list JsValue) (x : JsValue) :
  In x l -> (exists e, f x = Throw e) -> exists e, filterR f l = Throw e.
Proof.
  intros Hin Hx. induction l as [|y l IH]; [destruct Hin|].
  simpl. destruct (f y) as [b|e] eqn:Hy; [|eexists; reflexivity].
  cbn [rbind]. destruct Hin as [->|Hin].
  - destruct Hx as [e He]. congruence.
  - destruct (IH Hin) as [e ->]. eexists. reflexivity.
Qed.

Lemma search_throws_on_null (query : option JsValue) (ps : list JsValue) :
  In JNull ps ->
  (exists e, modelErrorResponse query (JArr ps) = Throw e) /\
  (exists e, noCredentialResponse query (JArr ps) = Throw e).
Proof.
  intros Hin. unfold modelErrorResponse, noCredentialResponse.
  destruct (call_toLowerCase query) as [queryLower|e]; [|split; eexists; reflexivity].
  cbn [rbind call_filter]. split.
  - destruct (filterR_throws (matches_name_category_sku queryLower) ps JNull Hin) as [e ->];
      [eexists; reflexivity | eexists; reflexivity].
  - destruct (filterR_throws (matches_name_category_sku_manufacturer queryLower) ps JNull Hin)
      as [e ->]; [eexists; reflexivity | eexists; reflexivity].
Qed.

Lemma replyResponse_throws_on_null (query : option JsValue) (ps : list JsValue)
      (aiResponse : JsValue) :
  In JNull ps -> exists e, replyResponse query (JArr ps) aiResponse = Throw e.
Proof.
  intros Hin. unfold replyResponse, mapSkus.
  destruct (get (Some aiResponse) "productSkus") as [skus|e] eqn:Hs; [|eexists; reflexivity].
  cbn [rbind]. destruct (ToBoolean skus).
  - cbn [call_filter].
    match goal with
    | |- context [filterR ?f ps] => destruct (filterR_throws f ps JNull Hin) as [e ->]
    end; [eexists; reflexivity|].
    cbv beta. cbn [rbind get]. eexists. reflexivity.
  - cbn [rbind List.length Nat.eqb].
    destruct (call_toLowerCase query) as [queryLower|e]; [|eexists; reflexivity].
    cbn [rbind call_filter].
    destruct (filterR_throws (matches_name_category_sku queryLower) ps JNull Hin) as [e ->];
      [eexists; reflexivity | eexists; reflexivity].
Qed.

(** X4: when the list the catalog serves has a [null] among its entries,
    every request that passed the guard gets the failure response, status
    500, on every path: each filter reads a property of every entry, and
    reading a property of [null] throws. *)
Theorem X4_null_entry_fails_every_request (w : World) (ps : list JsValue) :
  accepted w = true ->
  collection w = JArr ps ->
  In JNull ps ->
  response_of w = failureResponse.
Proof.
  intros Hacc Hc Hin. unfold response_of. rewrite (POST_served w Hacc). unfold served.
  rewrite Hc.
  destruct (search_throws_on_null (query_of w) ps Hin) as [[e1 Hm] [e2 Hn]].
  rewrite Hm, Hn. cbn [finish].
  destruct (credential_configured w); [|reflexivity].
  destruct (buildPrompt _ _) as [prompt|]; [|reflexivity].
  destruct (generateContent w prompt) as [text|]; [|reflexivity].
  destruct (replyResponse_throws_on_null (query_of w) ps
              (parseReply (JSON_parse w) text) Hin) as [e ->].
  reflexivity.
Qed.

Lemma X4_null_entry_witness :
  response_of {| request_json := Ok (JObj [("query", JStr "pump")]);
                 fetch_products := Ok (JArr [whirlpool_pump; JNull]);
                 GEMINI_API_KEY := None;
                 generateContent := fun _ => Throw Rejected;
                 JSON_parse := empty_object_only |} = failureResponse.
Proof.
  apply (X4_null_entry_fails_every_request _ [whirlpool_pump; JNull]);
    [reflexivity | reflexivity | right; left; reflexivity].
Defined.

(** ** X5: only products of the catalog, in its order *)

Lemma Subseq_nil_l {A} (l : list A) : Subseq [] l.
Proof. induction l; constructor; assumption. Qed.

Lemma Subseq_firstn {A} (n : nat) (r l : list A) : Subseq r l -> Subseq (firstn n r) l.
Proof.
  intros H. revert n. induction H; intros n.
  - rewrite firstn_nil. constructor.
  - apply subseq_skip. apply IHSubseq.
  - destruct n; [apply Subseq_nil_l|]. cbn [firstn]. apply subseq_keep. apply IHSubseq.
Qed.

Lemma filterR_Subseq (f : JsValue -> Result bool) (l r : list JsValue) :
  filterR f l = Ok r -> Subseq r l.
Proof.
  revert r. induction l as [|x l IH]; simpl; intros r H.
  - inv H. constructor.
  - bind_ok H. bind_ok H. inv H. specialize (IH _ eq_refl).
    destruct a; [apply subseq_keep | apply subseq_skip]; assumption.
Qed.

Lemma call_filter_Subseq (products : JsValue) (f : JsValue -> Result bool) (r : list JsValue) :
  call_filter products f = Ok r -> exists elems, products = JArr elems /\ Subseq r elems.
Proof.
  destruct products; simpl; try discriminate. intros H.
  eexists. split; [reflexivity|]. eapply filterR_Subseq. eassumption.
Qed.

Lemma noCredentialResponse_Subseq (query : option JsValue) (products : JsValue) (r : Response) :
  noCredentialResponse query products = Ok r ->
  exists elems l,
    products = JArr elems /\ field r "recommendedProducts" = Some (JArr l) /\ Subseq l elems.
Proof.
  unfold noCredentialResponse. intros H. bind_ok H. bind_ok H.
  destruct (call_filter_Subseq _ _ _ E0) as (elems & -> & Hsub).
  bind_ok H. bind_ok H. inv H.
  exists elems, (firstn 5 a0). split; [reflexivity|]. split; [reflexivity|].
  apply Subseq_firstn, Hsub.
Qed.

Lemma modelErrorResponse_Subseq (query : option JsValue) (products : JsValue) (r : Response) :
  modelErrorResponse query products = Ok r ->
  exists elems l,
    products = JArr elems /\ field r "recommendedProducts" = Some (JArr l) /\ Subseq l elems.
Proof.
  unfold modelErrorResponse. intros H. bind_ok H. bind_ok H.
  destruct (call_filter_Subseq _ _ _ E0) as (elems & -> & Hsub).
  bind_ok H. bind_ok H. inv H.
  exists elems, (firstn 5 a0). split; [reflexivity|]. split; [reflexivity|].
  apply Subseq_firstn, Hsub.
Qed.

Lemma replyResponse_Subseq (query : option JsValue) (products aiResponse : JsValue)
      (r : Response) :
  replyResponse query products aiResponse = Ok r ->
  is_array products = true ->
  exists elems l,
    products = JArr elems /\ field r "recommendedProducts" = Some (JArr l) /\ Subseq l elems.
Proof.
  unfold replyResponse. intros H Harr.
  destruct products as [ | | | | elems | ]; try discriminate Harr.
  bind_ok H. rename a into mapped. bind_ok H. rename a into recommended.
  bind_ok H. bind_ok H. inv H.
  exists elems, recommended. split; [reflexivity|]. split; [reflexivity|].
  assert (Hm : Subseq mapped elems).
  { unfold mapSkus in E. bind_ok E. destruct (ToBoolean a1).
    - bind_ok E. inv E.
      destruct (call_filter_Subseq _ _ _ E4) as (elems' & Heq & Hsub).
      injection Heq as <-. apply Subseq_firstn, Hsub.
    - inv E. apply Subseq_nil_l. }
  destruct (Nat.eqb (List.length mapped) 0) eqn:Hz.
  - apply Nat.eqb_eq in Hz. destruct mapped; [|discriminate Hz].
    bind_ok E0. bind_ok E0. inv E0. cbn [app].
    destruct (call_filter_Subseq _ _ _ E4) as (elems' & Heq & Hsub).
    injection Heq as <-. apply Subseq_firstn, Hsub.
  - inv E0. exact Hm.
Qed.

Lemma status_200_accepted (w : World) : status (response_of w) = 200 -> accepted w = true.
Proof.
  intros Hs. destruct (POST_outcome w); try assumption; discriminate Hs.
Qed.

(** X5: the recommended products of a success are entries of the list the
    catalog served (of the empty list when the fetch failed), each taken at
    most once and in the order of the catalog: the handler never makes a
    product up and never reorders. *)
Theorem X5_recommendations_come_from_the_catalog (w : World) :
  status (response_of w) = 200 ->
  exists elems l,
    collection w = JArr elems /\
    field (response_of w) "recommendedProducts" = Some (JArr l) /\
    Subseq l elems.
Proof.
  intros Hs. pose proof (status_200_accepted w Hs) as Hacc.
  unfold response_of in *. rewrite (POST_served w Hacc) in *. unfold served in *.
  destruct (credential_configured w).
  - destruct (buildPrompt _ _) as [prompt|] eqn:Hp.
    + destruct (buildPrompt_needs_array _ _ _ Hp) as [elems He].
      destruct (generateContent w prompt) as [text|].
      * destruct (replyResponse _ _ _) as [r|] eqn:Hr.
        -- apply (replyResponse_Subseq _ _ _ _ Hr). rewrite He. reflexivity.
        -- cbn [fst] in *. destruct (modelErrorResponse _ _) as [r|] eqn:Hm;
             [apply (modelErrorResponse_Subseq _ _ _ Hm) | discriminate Hs].
      * cbn [fst] in *. destruct (modelErrorResponse _ _) as [r|] eqn:Hm;
          [apply (modelErrorResponse_Subseq _ _ _ Hm) | discriminate Hs].
    + cbn [fst] in *. destruct (modelErrorResponse _ _) as [r|] eqn:Hm;
        [apply (modelErrorResponse_Subseq _ _ _ Hm) | discriminate Hs].
  - cbn [fst] in *. destruct (noCredentialResponse _ _) as [r|] eqn:Hn;
      [apply (noCredentialResponse_Subseq _ _ _ Hn) | discriminate Hs].
Qed.

Lemma X5_recommendations_witness :
  exists elems l,
    collection one_suggestion_world = JArr elems /\
    field (response_of one_suggestion_world) "recommendedProducts" = Some (JArr l) /\
    Subseq l elems.
Proof.
  apply (X5_recommendations_come_from_the_catalog one_suggestion_world). reflexivity.
Defined.

(** ** X6: a reply that names products of the catalog *)

(** X6: when the parsed reply lists SKUs and at least one product of the
    catalog has one of them, the recommendations are the listed products
    (order of the catalog, first five) and the query is not searched for;
    the answer and the suggestions of the reply are passed on when truthy,
    and replaced by the count sentence and the default suggestions when
    not. *)
Theorem X6_listed_products_are_recommended
        (w : World) (ps skus : list JsValue) (prompt : Prompt) (text m : string)
        (reply : list (string * JsValue)) :
  accepted w = true ->
  credential_configured w = true ->
  collection w = JArr ps ->
  (forall p, In p ps -> p <> JNull) ->
  buildPrompt (query_of w) (JArr ps) = Ok prompt ->
  generateContent w prompt = Ok text ->
  jsonMatch text = Some m ->
  JSON_parse w m = Ok (JObj reply) ->
  assoc "productSkus" reply = Some (JArr skus) ->
  filter (listed skus) ps <> [] ->
  let recommended := firstn 5 (filter (listed skus) ps) in
  POST w =
  (success
     (or_else (assoc "answer" reply)
        (JStr ("I found " ++ length_toString (List.length recommended)
               ++ " products that might interest you.")))
     recommended
     (or_else (assoc "suggestions" reply) (JArr default_suggestions)),
   [CatalogFetch; ModelCall prompt]).
Proof.
  intros Hacc Hkey Hc Hps Hp Hg Hm Hparse Hskus Hne. cbv zeta.
  rewrite (POST_served w Hacc). unfold served. rewrite Hkey, Hc, Hp, Hg.
  unfold parseReply. rewrite Hm, Hparse.
  unfold replyResponse.
  rewrite (mapSkus_listed ps skus (JObj reply) Hps) by (cbn [get]; rewrite Hskus; reflexivity).
  cbn [rbind].
  destruct (firstn 5 (filter (listed skus) ps)) as [|p rest] eqn:Hf.
  - destruct (filter (listed skus) ps); [contradiction | discriminate Hf].
  - reflexivity.
Qed.

Lemma X6_listed_products_witness :
  exists prompt,
    POST two_skus_world =
    (success
       (JStr "I found 2 products that might interest you.")
       [product "GE-002" "GE Oven Heating Element" "Oven Parts" "GE" "89.99";
        product "SM-004" "Samsung Dryer Belt" "Dryer Parts" "Samsung" "32.99"]
       (JArr default_suggestions),
     [CatalogFetch; ModelCall prompt]).
Proof.
  eexists.
  eapply (X6_listed_products_are_recommended two_skus_world sample_catalog
            [JStr "SM-004"; JStr "GE-002"] _ two_skus_text two_skus_text
            [("productSkus", JArr [JStr "SM-004"; JStr "GE-002"])]);
    [ reflexivity | reflexivity | reflexivity
    | intros p Hp; simpl in Hp; repeat destruct Hp as [<-|Hp]; try discriminate; contradiction
    | reflexivity | reflexivity | reflexivity | reflexivity | reflexivity
    | vm_compute; discriminate ].
Defined.

(** ** X7: a model call that fails *)

(** X7: when the model call fails on a request with a non-empty query over
    a catalog of product records, the failure is not passed on: the
    response has status 200, its recommendations are the first five
    products whose name, category or SKU contains the query, its answer
    reports their number and the name of the first, and its suggestions are
    the three of the failure handler; the catalog was fetched once and the
    model asked once. *)
Theorem X7_model_failure_is_absorbed
        (w : World) (props : list (string * JsValue)) (q : string) (ps : list JsValue)
        (prompt : Prompt) (e : Exn) :
  request_json w = Ok (JObj props) ->
  assoc "query" props = Some (JStr q) ->
  q <> "" ->
  credential_configured w = true ->
  collection w = JArr ps ->
  forallb is_product ps = true ->
  buildPrompt (Some (JStr q)) (JArr ps) = Ok prompt ->
  generateContent w prompt = Throw e ->
  let matches := firstn 5 (filter (three_field_matcher q) ps) in
  POST w =
  (success (JStr (model_error_answer q matches)) matches (JArr model_error_suggestions),
   [CatalogFetch; ModelCall prompt]) /\
  status (response_of w) = 200.
Proof.
  intros Hb Hq Hne Hkey Hc Hps Hp Hg. cbv zeta.
  pose proof (model_failure_search w props q ps prompt e Hb Hq Hne Hkey Hc Hps Hp Hg) as H.
  cbv zeta in H. split; [exact H|]. unfold response_of. rewrite H. reflexivity.
Qed.

Lemma X7_model_failure_witness :
  exists prompt,
    POST (world0 (JStr "dryer") (Some "key") (Throw Rejected)) =
    (success
       (JStr ("I found 1 products matching " ++ dquote ++ "dryer" ++ dquote
              ++ ". The top result is Samsung Dryer Belt."))
       [product "SM-004" "Samsung Dryer Belt" "Dryer Parts" "Samsung" "32.99"]
       (JArr model_error_suggestions),
     [CatalogFetch; ModelCall prompt]) /\
    status (response_of (world0 (JStr "dryer") (Some "key") (Throw Rejected))) = 200.
Proof.
  eexists.
  eapply (X7_model_failure_is_absorbed (world0 (JStr "dryer") (Some "key") (Throw Rejected))
            [("query", JStr "dryer")] "dryer" sample_catalog _ Rejected);
    [reflexivity | reflexivity | discriminate | reflexivity | reflexivity
    | reflexivity | reflexivity | reflexivity].
Defined.

(** ** X8: the length of an answer made of raw text *)

Lemma substring_0_length (n : nat) (s : string) : String.length (substring 0 n s) <= n.
Proof.
  revert s. induction n as [|n IH]; intros s.
  - destruct s; simpl; lia.
  - destruct s as [|c s]; simpl; [lia|]. specialize (IH s). lia.
Qed.

Lemma substring_0_prefix (n : nat) (s : string) : prefix (substring 0 n s) s = true.
Proof.
  revert s. induction n as [|n IH]; intros s.
  - destruct s; reflexivity.
  - destruct s as [|c s]; simpl; [reflexivity|].
    destruct (ascii_dec c c); [apply IH | congruence].
Qed.

Lemma count_sentence_length (n : nat) :
  n <= 5 ->
  String.length ("I found " ++ length_toString n ++ " products that might interest you.") <= 500.
Proof.
  intros H.
  assert (Hn : n = 0 \/ n = 1 \/ n = 2 \/ n = 3 \/ n = 4 \/ n = 5) by lia.
  destruct Hn as [->|[->|[->|[->|[->| ->]]]]]; vm_compute; repeat constructor.
Qed.

(** X8: when the reply of the model cannot be parsed, the answer of the
    response is a string of at most 500 code units, and unless the reply
    is empty it is a prefix of the reply: a long reply is cut, never
    passed on whole. *)
Theorem X8_raw_text_answer_is_cut_at_500
        (w : World) (props : list (string * JsValue)) (q : string) (ps : list JsValue)
        (prompt : Prompt) (text : string) :
  request_json w = Ok (JObj props) ->
  assoc "query" props = Some (JStr q) ->
  q <> "" ->
  credential_configured w = true ->
  collection w = JArr ps ->
  forallb is_product ps = true ->
  buildPrompt (Some (JStr q)) (JArr ps) = Ok prompt ->
  generateContent w prompt = Ok text ->
  unparseable w text ->
  exists answer,
    field (response_of w) "answer" = Some (JStr answer) /\
    String.length answer <= 500 /\
    (text <> "" -> prefix answer text = true).
Proof.
  intros Hb Hq Hne Hkey Hc Hps Hp Hg Hu.
  pose proof (unparseable_reply_response w props q ps prompt text
                Hb Hq Hne Hkey Hc Hps Hp Hg Hu) as H.
  cbv zeta in H. unfold response_of. rewrite H. cbn [fst]. unfold field, success.
  cbn [body NextResponse_json assoc String.eqb Ascii.eqb Bool.eqb].
  unfold text_answer.
  destruct (String.eqb_spec (substring 0 500 text) "") as [He|He].
  - eexists. split; [reflexivity|]. split.
    + apply count_sentence_length, firstn_le.
    + intros Hne'. destruct text; [contradiction | discriminate He].
  - eexists. split; [reflexivity|]. split.
    + apply substring_0_length.
    + intros _. apply substring_0_prefix.
Qed.

Lemma X8_raw_text_answer_witness :
  exists answer,
    field (response_of (world0 (JStr "Samsung") (Some "key")
                               (Ok "I would pick the dryer belt."))) "answer"
      = Some (JStr answer) /\
    String.length answer <= 500 /\
    ("I would pick the dryer belt." <> "" ->
     prefix answer "I would pick the dryer belt." = true).
Proof.
  eapply (X8_raw_text_answer_is_cut_at_500
            (world0 (JStr "Samsung") (Some "key") (Ok "I would pick the dryer belt."))
            [("query", JStr "Samsung")] "Samsung" sample_catalog);
    [reflexivity | reflexivity | discriminate | reflexivity | reflexivity
    | reflexivity | reflexivity | reflexivity | ].
  intros m Hm. discriminate Hm.
Defined.

(** ** X9: what goes into the prompt *)

Lemma mapR_Forall2 {A B} (f : A -> Result B) (l : list A) (r : list B) :
  mapR f l = Ok r -> Forall2 (fun x y => f x = Ok y) l r.
Proof.
  revert r. induction l as [|x l IH]; simpl; intros r H.
  - inv H. constructor.
  - bind_ok H. bind_ok H. inv H. constructor; auto.
Qed.

Lemma buildPrompt_content (query : option JsValue) (ps : list JsValue) (prompt : Prompt) :
  buildPrompt query (JArr ps) = Ok prompt ->
  ToString query = Ok (prompt_query prompt) /\
  Forall2 (fun p projected => project p = Ok projected) (firstn 10 ps) (prompt_sample prompt) /\
  prompt_total prompt = List.length ps.
Proof.
  unfold buildPrompt. intros H. bind_ok H. bind_ok H. inv H. cbn.
  split; [reflexivity|]. split; [|reflexivity]. apply mapR_Forall2. assumption.
Qed.

(** X9: whenever the model is asked, the prompt carries the query as a
    template renders it, the projections of the first ten products of the
    catalog in their order (all of them when there are fewer), so never
    more than ten, and the size of the whole catalog. *)
Theorem X9_prompt_samples_first_ten (w : World) (prompt : Prompt) :
  In (ModelCall prompt) (calls_of w) ->
  exists ps,
    collection w = JArr ps /\
    ToString (query_of w) = Ok (prompt_query prompt) /\
    Forall2 (fun p projected => project p = Ok projected)
            (firstn 10 ps) (prompt_sample prompt) /\
    List.length (prompt_sample prompt) = Nat.min 10 (List.length ps) /\
    prompt_total prompt = List.length ps.
Proof.
  intros Hin.
  destruct (calls_of_cases w) as [[Hc _] | [[Hc _] | (prompt' & Hc & _ & _ & Hp)]];
    rewrite Hc in Hin; simpl in Hin.
  - destruct Hin.
  - destruct Hin as [Hin|[]]. discriminate Hin.
  - destruct Hin as [Hin|[Hin|[]]]; [discriminate Hin|]. injection Hin as ->.
    destruct (buildPrompt_needs_array _ _ _ Hp) as [ps Hps]. rewrite Hps in Hp.
    destruct (buildPrompt_content _ _ _ Hp) as (Hq & Hs & Ht).
    exists ps. repeat (split; [assumption|]). split; [|assumption].
    rewrite <- (Forall2_length Hs). apply length_firstn.
Qed.

Lemma X9_prompt_witness :
  exists prompt ps,
    collection one_suggestion_world = JArr ps /\
    ToString (query_of one_suggestion_world) = Ok (prompt_query prompt) /\
    Forall2 (fun p projected => project p = Ok projected)
            (firstn 10 ps) (prompt_sample prompt) /\
    List.length (prompt_sample prompt) = Nat.min 10 (List.length ps) /\
    prompt_total prompt = List.length ps.
Proof.
  eexists.
  eapply (X9_prompt_samples_first_ten one_suggestion_world).
  right. left. reflexivity.
Defined.

(** ** X10: the case of the query *)

Lemma spec_matcher_lower (q q' : string) (p : JsValue) :
  toLowerCase q = toLowerCase q' -> spec_matcher q p = spec_matcher q' p.
Proof. intros H. unfold spec_matcher, contains_ci. rewrite H. reflexivity. Qed.

Lemma filter_ext_all {A} (f g : A -> bool) (l : list A) :
  (forall x, f x = g x) -> filter f l = filter g l.
Proof. intros H. induction l as [|x l IH]; simpl; [|rewrite H, IH]; reflexivity. Qed.

Lemma toLowerCase_nonempty (q q' : string) :
  toLowerCase q = toLowerCase q' -> q <> "" -> q' <> "".
Proof. intros H Hq ->. destruct q; [congruence | discriminate H]. Qed.

(** X10: without a credential, two requests over the same catalog of
    product records whose queries differ only in the case of their letters
    get the same recommended products. *)
Theorem X10_query_case_does_not_matter
        (w w' : World) (props props' : list (string * JsValue)) (q q' : string)
        (ps : list JsValue) :
  request_json w = Ok (JObj props) ->
  assoc "query" props = Some (JStr q) ->
  request_json w' = Ok (JObj props') ->
  assoc "query" props' = Some (JStr q') ->
  q <> "" ->
  toLowerCase q = toLowerCase q' ->
  credential_configured w = false ->
  credential_configured w' = false ->
  collection w = JArr ps ->
  collection w' = JArr ps ->
  forallb is_product ps = true ->
  field (response_of w) "recommendedProducts" = field (response_of w') "recommendedProducts" /\
  field (response_of w) "recommendedProducts" = Some (JArr (firstn 5 (filter (spec_matcher q) ps))).
Proof.
  intros Hb Hq Hb' Hq' Hne Hl Hk Hk' Hc Hc' Hps.
  pose proof (toLowerCase_nonempty q q' Hl Hne) as Hne'.
  unfold response_of, POST.
  rewrite (handle_accepted w props q Hb Hq Hne), Hk, Hc.
  rewrite (handle_accepted w' props' q' Hb' Hq' Hne'), Hk', Hc'.
  unfold lift. rewrite !noCredentialResponse_products by assumption. cbv zeta.
  cbn [fst]. unfold field, success. cbn [body NextResponse_json assoc String.eqb Ascii.eqb Bool.eqb].
  rewrite (filter_ext_all (spec_matcher q') (spec_matcher q) ps)
    by (intros p; symmetry; apply spec_matcher_lower, Hl).
  split; reflexivity.
Qed.

Lemma X10_query_case_witness :
  field (response_of (world0 (JStr "WHIRLPOOL") None (Throw Rejected))) "recommendedProducts" =
  field (response_of (world0 (JStr "whirlPool") None (Throw Rejected))) "recommendedProducts" /\
  field (response_of (world0 (JStr "WHIRLPOOL") None (Throw Rejected))) "recommendedProducts" =
  Some (JArr (firstn 5 (filter (spec_matcher "WHIRLPOOL") sample_catalog))).
Proof.
  apply (X10_query_case_does_not_matter
           (world0 (JStr "WHIRLPOOL") None (Throw Rejected))
           (world0 (JStr "whirlPool") None (Throw Rejected))
           [("query", JStr "WHIRLPOOL")] [("query", JStr "whirlPool")]
           "WHIRLPOOL" "whirlPool" sample_catalog);
    try reflexivity. discriminate.
Defined.

(** ** X11: a query that is not a string *)

(** X11: without a credential, a query that passes the guard but is not a
    string (a number, [true], an array, an object) gets the failure
    response, status 500, after the catalog was fetched: there is no
    [toLowerCase] to call on it. *)
Theorem X11_query_that_is_not_text_fails (w : World) (v : JsValue) :
  accepted w = true ->
  query_of w = Some v ->
  (forall s, v <> JStr s) ->
  credential_configured w = false ->
  POST w = (failureResponse, [CatalogFetch]).
Proof.
  intros Hacc Hq Hv Hk. rewrite (POST_served w Hacc). unfold served.
  rewrite Hk, Hq. unfold noCredentialResponse.
  destruct v; try reflexivity. destruct (Hv s eq_refl).
Qed.

Lemma X11_query_that_is_not_text_witness :
  POST (world0 (JArr [JStr "pump"]) None (Throw Rejected)) = (failureResponse, [CatalogFetch]).
Proof.
  apply (X11_query_that_is_not_text_fails _ (JArr [JStr "pump"]));
    [reflexivity | reflexivity | intros s; discriminate | reflexivity].
Defined.

(** ** X12: cutting what was cut *)

Lemma append_length (a b : string) :
  String.length (a ++ b) = String.length a + String.length b.
Proof. induction a; simpl; [reflexivity | rewrite IHa; reflexivity]. Qed.

(** X12: what the pattern cuts out of a text starts and ends with a brace,
    is no longer than the text, and is cut out of itself unchanged: the
    cut is idempotent. *)
Theorem X12_cut_is_idempotent (text m : string) :
  jsonMatch text = Some m ->
  jsonMatch m = Some m /\
  2 <= String.length m <= String.length text /\
  prefix "{" m = true.
Proof.
  intros H. apply jsonMatch_spec in H.
  destruct H as (pre & mid & post & -> & Hpre & Hpost & ->). split.
  - apply jsonMatch_spec. exists "", mid, "". repeat split.
  - split; [|destruct mid; reflexivity].
    repeat (rewrite append_length || cbn [String.length append]). lia.
Qed.

Lemma X12_cut_witness :
  jsonMatch "{} or {}" = Some "{} or {}" /\
  2 <= String.length "{} or {}" <= String.length "Either {} or {} will do" /\
  prefix "{" "{} or {}" = true.
Proof.
  apply (X12_cut_is_idempotent "Either {} or {} will do" "{} or {}"). reflexivity.
Defined.

(** ** X13: SKUs given as one string *)

(** X13: when the reply gives its productSkus as a non-empty string
    instead of a list, [includes] is the substring test of strings: over
    products whose SKU is text, the mapping returns the first five
    products, in the order of the catalog, whose SKU occurs somewhere in
    that string. *)
Theorem X13_skus_in_one_string_match_by_substring
        (ps : list JsValue) (reply : JsValue) (listing : string) :
  get (Some reply) "productSkus" = Ok (Some (JStr listing)) ->
  listing <> "" ->
  forallb has_text_sku ps = true ->
  mapSkus (JArr ps) reply =
  Ok (firstn 5 (filter (fun p => includes listing (text_of p "sku")) ps)).
Proof.
  intros Hs Hne Hps. unfold mapSkus. rewrite Hs. cbn [rbind ToBoolean].
  destruct (String.eqb_spec listing ""); [contradiction|]. cbn [negb call_filter].
  rewrite (filterR_pure _ (fun p => includes listing (text_of p "sku"))); [reflexivity|].
  intros p Hp. cbn [rbind]. rewrite forallb_forall in Hps. specialize (Hps p Hp).
  unfold has_text_sku, sku_of in Hps.
  destruct p as [ | | | | | props]; try discriminate Hps.
  cbn [get rbind text_of]. destruct (assoc "sku" props) as [[ | | | k | | ]|];
    try discriminate Hps. reflexivity.
Qed.

Lemma X13_skus_in_one_string_witness :
  mapSkus (JArr sample_catalog) text_skus_reply =
  Ok (firstn 5 (filter (fun p => includes "GE-002, WP-005" (text_of p "sku")) sample_catalog)).
Proof.
  apply (X13_skus_in_one_string_match_by_substring sample_catalog text_skus_reply
           "GE-002, WP-005"); [reflexivity | discriminate | reflexivity].
Defined.

(** ** X14: SKUs that are neither a list nor a string *)

Lemma mapSkus_without_includes (p : JsValue) (ps : list JsValue)
      (reply : list (string * JsValue)) :
  truthy_without_includes (assoc "productSkus" reply) = true ->
  p <> JNull ->
  exists e, mapSkus (JArr (p :: ps)) (JObj reply) = Throw e.
Proof.
  intros Ht Hp. unfold mapSkus. cbn [get rbind].
  destruct (assoc "productSkus" reply) as [[ | b | n | | | o]|];
    try discriminate Ht; cbn [truthy_without_includes] in Ht; rewrite Ht;
    destruct p; try contradiction;
    cbn [call_filter filterR rbind get call_includes]; eexists; reflexivity.
Qed.

(** X14: when the parsed reply has a truthy productSkus that is neither a
    list nor a string (a number, [true], an object) and the catalog has at
    least one product, there is no [includes] to call: the reply is
    dropped, answer and suggestions with it, and the response is the one
    of a failed model call, status 200 with the search on the query. *)
Theorem X14_skus_without_includes_drop_the_reply
        (w : World) (props : list (string * JsValue)) (q : string)
        (p : JsValue) (ps : list JsValue) (prompt : Prompt) (text m : string)
        (reply : list (string * JsValue)) :
  request_json w = Ok (JObj props) ->
  assoc "query" props = Some (JStr q) ->
  q <> "" ->
  credential_configured w = true ->
  collection w = JArr (p :: ps) ->
  forallb is_product (p :: ps) = true ->
  buildPrompt (Some (JStr q)) (JArr (p :: ps)) = Ok prompt ->
  generateContent w prompt = Ok text ->
  jsonMatch text = Some m ->
  JSON_parse w m = Ok (JObj reply) ->
  truthy_without_includes (assoc "productSkus" reply) = true ->
  let matches := firstn 5 (filter (three_field_matcher q) (p :: ps)) in
  POST w =
  (success (JStr (model_error_answer q matches)) matches (JArr model_error_suggestions),
   [CatalogFetch; ModelCall prompt]).
Proof.
  intros Hb Hq Hne Hkey Hc Hps Hp Hg Hm Hparse Ht. cbv zeta. unfold POST.
  rewrite (handle_accepted w props q Hb Hq Hne), Hkey, Hc.
  unfold try_catch, modelPath, bind, lift, attempt.
  rewrite Hp, Hg. unfold parseReply. rewrite Hm, Hparse.
  assert (Hnn : p <> JNull).
  { intros ->. discriminate Hps. }
  unfold replyResponse.
  destruct (mapSkus_without_includes p ps reply Ht Hnn) as [e ->]. cbn [rbind].
  rewrite modelErrorResponse_products by assumption. reflexivity.
Qed.

Lemma X14_skus_without_includes_witness :
  exists prompt,
    POST numeric_skus_world =
    (success
       (JStr ("I found 1 products matching " ++ dquote ++ "belt" ++ dquote
              ++ ". The top result is Samsung Dryer Belt."))
       [product "SM-004" "Samsung Dryer Belt" "Dryer Parts" "Samsung" "32.99"]
       (JArr model_error_suggestions),
     [CatalogFetch; ModelCall prompt]).
Proof.
  eexists.
  eapply (X14_skus_without_includes_drop_the_reply numeric_skus_world
            [("query", JStr "belt")] "belt"
            (product "WP-001" "Whirlpool Water Filter" "Filters" "Whirlpool" "45.99")
            (tl sample_catalog) _ numeric_skus_text numeric_skus_text
            [("answer", JStr "Take this one."); ("productSkus", JNum (Num "4"))]);
    [reflexivity | reflexivity | discriminate | reflexivity | reflexivity | reflexivity
    | reflexivity | reflexivity | reflexivity | reflexivity | reflexivity].
Defined.

(** ** X24: a reply that names no product of the catalog *)

(** X24: when the reply is parsed but its SKUs select nothing (no list,
    an empty list, or SKUs the catalog does not have), the recommendations
    are filled by the search on the query, first five products whose name,
    category or SKU contains it, while the answer and the suggestions of
    the reply are still passed on when truthy; an answer that is missing
    is replaced by the sentence with the number of products found. *)
Theorem X24_reply_without_products_keeps_its_answer
        (w : World) (props : list (string * JsValue)) (q : string) (ps : list JsValue)
        (prompt : Prompt) (text m : string) (reply : list (string * JsValue)) :
  request_json w = Ok (JObj props) ->
  assoc "query" props = Some (JStr q) ->
  q <> "" ->
  credential_configured w = true ->
  collection w = JArr ps ->
  forallb is_product ps = true ->
  buildPrompt (Some (JStr q)) (JArr ps) = Ok prompt ->
  generateContent w prompt = Ok text ->
  jsonMatch text = Some m ->
  JSON_parse w m = Ok (JObj reply) ->
  mapSkus (JArr ps) (JObj reply) = Ok [] ->
  let matches := firstn 5 (filter (three_field_matcher q) ps) in
  POST w =
  (success
     (or_else (assoc "answer" reply)
        (JStr ("I found " ++ length_toString (List.length matches)
               ++ " products that might interest you.")))
     matches
     (or_else (assoc "suggestions" reply) (JArr default_suggestions)),
   [CatalogFetch; ModelCall prompt]).
Proof.
  intros Hb Hq Hne Hkey Hc Hps Hp Hg Hm Hparse Hmap. cbv zeta. unfold POST.
  rewrite (handle_accepted w props q Hb Hq Hne), Hkey, Hc.
  unfold try_catch, modelPath, bind, lift, attempt.
  rewrite Hp, Hg. unfold parseReply. rewrite Hm, Hparse.
  unfold replyResponse. rewrite Hmap.
  cbn [rbind List.length Nat.eqb call_toLowerCase].
  rewrite filter_products_three by assumption. reflexivity.
Qed.

Lemma X24_reply_without_products_witness :
  exists prompt,
    POST one_suggestion_world =
    (success
       (JStr "I found 2 products that might interest you.")
       [product "LG-003" "LG Dishwasher Pump" "Dishwasher Parts" "LG" "125.5";
        product "W10-006" "Dishwasher Drain Pump" "Dishwasher Parts" "Whirlpool" "64"]
       (JArr [JStr "Ask about pumps"]),
     [CatalogFetch; ModelCall prompt]).
Proof.
  eexists.
  eapply (X24_reply_without_products_keeps_its_answer one_suggestion_world
            [("query", JStr "pump")] "pump" sample_catalog _
            ("Here you go: " ++ one_suggestion_text) one_suggestion_text
            [("suggestions", JArr [JStr "Ask about pumps"])]);
    [reflexivity | reflexivity | discriminate | reflexivity | reflexivity | reflexivity
    | reflexivity | reflexivity | reflexivity | reflexivity | reflexivity].
Defined.

(** * The dashboard: properties *)

Example page_bar_in_the_middle :
  getPageNumbers 10 20 =
  [PageNumber 1; Ellipsis; PageNumber 8; PageNumber 9; PageNumber 10; PageNumber 11;
   PageNumber 12; Ellipsis; PageNumber 20].
Proof. reflexivity. Qed.

Example page_bar_fills_a_gap_of_one :
  getPageNumbers 4 7 =
  [PageNumber 1; PageNumber 2; PageNumber 3; PageNumber 4; PageNumber 5; PageNumber 6;
   PageNumber 7].
Proof. reflexivity. Qed.

Example pages_of_seven :
  (totalPages sample_catalog 3 = 3)%Z /\
  currentProducts sample_catalog 3 3 =
    [product "FR-007" "Frigidaire Door Gasket" "Refrigerator Parts" "Frigidaire" "54.25"] /\
  currentProducts sample_catalog 4 3 = [].
Proof. repeat split. Qed.

Example table_search :
  tableProducts (JArr sample_catalog) "whirlpool" =
  Ok [product "WP-001" "Whirlpool Water Filter" "Filters" "Whirlpool" "45.99";
      product "WP-005" "Whirlpool Agitator" "Washer Parts" "Whirlpool" "78.5";
      product "W10-006" "Dishwasher Drain Pump" "Dishwasher Parts" "Whirlpool" "64"] /\
  tableProducts (JArr sample_catalog) "filters" = Ok [] /\
  aiRequest "  " = None /\
  aiRequest " pump " = Some (JObj [("query", JStr " pump ")]).
Proof. repeat split. Qed.

(** ** The pages of the table *)

Lemma totalPages_bounds {A} (l : list A) (itemsPerPage : Z) :
  (0 < itemsPerPage)%Z ->
  ((totalPages l itemsPerPage - 1) * itemsPerPage < Z.of_nat (List.length l)
   <= totalPages l itemsPerPage * itemsPerPage)%Z.
Proof.
  intros Hpos. unfold totalPages.
  pose proof (Z.div_mod (- Z.of_nat (List.length l)) itemsPerPage) as Hdm.
  pose proof (Z.mod_pos_bound (- Z.of_nat (List.length l)) itemsPerPage Hpos) as Hm.
  specialize (Hdm ltac:(lia)). nia.
Qed.

Lemma totalPages_nonnegative {A} (l : list A) (itemsPerPage : Z) :
  (0 < itemsPerPage)%Z -> (0 <= totalPages l itemsPerPage)%Z.
Proof.
  intros Hpos. pose proof (totalPages_bounds l itemsPerPage Hpos). nia.
Qed.

(** A page is the next [itemsPerPage] products after those of the pages
    before it. *)
Lemma currentProducts_chunk {A} (l : list A) (k n : nat) :
  1 <= k -> 0 < n ->
  currentProducts l (Z.of_nat k) (Z.of_nat n) = firstn n (skipn ((k - 1) * n) l).
Proof.
  intros Hk Hn. unfold currentProducts, slice, indexOfFirstItem, indexOfLastItem.
  set (len := List.length l).
  assert (Hstart : (Z.of_nat k * Z.of_nat n - Z.of_nat n = Z.of_nat ((k - 1) * n))%Z) by nia.
  rewrite Hstart.
  pose proof (Nat2Z.is_nonneg ((k - 1) * n)) as Hnn.
  destruct (Z.ltb_spec (Z.of_nat ((k - 1) * n)) 0) as [Hneg|_]; [exfalso; apply (Z.lt_irrefl 0); eapply Z.le_lt_trans; eassumption|].
  destruct (Z.ltb_spec (Z.of_nat k * Z.of_nat n) 0); [nia|].
  destruct (Nat.le_gt_cases len ((k - 1) * n)) as [Hout|Hin].
  - rewrite (Z.min_r (Z.of_nat ((k - 1) * n)) (Z.of_nat len)) by lia.
    rewrite (Z.min_r (Z.of_nat k * Z.of_nat n) (Z.of_nat len)) by nia.
    rewrite Nat2Z.id, (skipn_all2 l) by (fold len; lia).
    rewrite (skipn_all2 l) by (fold len; lia).
    rewrite !firstn_nil. reflexivity.
  - rewrite (Z.min_l (Z.of_nat ((k - 1) * n)) (Z.of_nat len)) by lia. rewrite Nat2Z.id.
    assert (Hlen : List.length (skipn ((k - 1) * n) l) = len - (k - 1) * n)
      by (apply length_skipn).
    destruct (Z.le_gt_cases (Z.of_nat k * Z.of_nat n) (Z.of_nat len)) as [Hfull|Hpart].
    + rewrite Z.min_l by lia. f_equal. nia.
    + rewrite Z.min_r by lia.
      rewrite !firstn_all2; [reflexivity | rewrite Hlen; nia | rewrite Hlen; nia].
Qed.

Lemma chunks_concat {A} (n pages : nat) (l : list A) :
  List.length l <= pages * n ->
  concat (map (fun k => firstn n (skipn ((k - 1) * n) l)) (seq 1 pages)) = l.
Proof.
  revert l. induction pages as [|pages IH]; intros l Hlen.
  - destruct l; [reflexivity | simpl in Hlen; lia].
  - cbn [seq map concat]. rewrite <- seq_shift, map_map.
    replace ((1 - 1) * n) with 0 by lia. cbn [skipn].
    rewrite (map_ext_in _ (fun k => firstn n (skipn ((k - 1) * n) (skipn n l)))).
    + rewrite IH; [apply firstn_skipn|]. rewrite length_skipn. nia.
    + intros k Hk. apply in_seq in Hk. rewrite skipn_skipn. do 2 f_equal. nia.
Qed.

(** X15: for a positive page size the pages 1 to [totalPages], one after
    the other, are the filtered products: every product is on exactly one
    page and the order is kept.  With no product there is no page. *)
Theorem X15_pages_partition_the_products {A} (filteredProducts : list A) (itemsPerPage : Z) :
  (0 < itemsPerPage)%Z ->
  concat (map (fun page => currentProducts filteredProducts page itemsPerPage)
              (pages_upto (totalPages filteredProducts itemsPerPage)))
  = filteredProducts.
Proof.
  intros Hpos. unfold pages_upto. rewrite map_map.
  pose proof (totalPages_bounds filteredProducts itemsPerPage Hpos) as Hb.
  pose proof (totalPages_nonnegative filteredProducts itemsPerPage Hpos) as Hnn.
  set (pages := Z.to_nat (totalPages filteredProducts itemsPerPage)).
  set (n := Z.to_nat itemsPerPage).
  rewrite (map_ext_in _ (fun k => firstn n (skipn ((k - 1) * n) filteredProducts))).
  - apply chunks_concat. subst pages n. nia.
  - intros k Hk. apply in_seq in Hk.
    replace itemsPerPage with (Z.of_nat n) by (subst n; lia).
    apply currentProducts_chunk; subst n; lia.
Qed.

Lemma X15_pages_partition_witness :
  concat (map (fun page => currentProducts sample_catalog page 3)
              (pages_upto (totalPages sample_catalog 3)))
  = sample_catalog.
Proof.
  apply (X15_pages_partition_the_products sample_catalog 3). reflexivity.
Defined.

Lemma currentProducts_length {A} (l : list A) (currentPage itemsPerPage : Z) :
  (0 < itemsPerPage)%Z ->
  (1 <= currentPage)%Z ->
  Z.of_nat (List.length (currentProducts l currentPage itemsPerPage)) =
  Z.min itemsPerPage
        (Z.max 0 (Z.of_nat (List.length l) - (currentPage - 1) * itemsPerPage))%Z.
Proof.
  intros Hpos Hcp.
  assert (E : currentProducts l currentPage itemsPerPage =
              firstn (Z.to_nat itemsPerPage)
                     (skipn ((Z.to_nat currentPage - 1) * Z.to_nat itemsPerPage) l)).
  { rewrite <- (currentProducts_chunk l (Z.to_nat currentPage) (Z.to_nat itemsPerPage))
      by lia.
    rewrite !Z2Nat.id by lia. reflexivity. }
  rewrite E, length_firstn, length_skipn.
  assert (Hoff : Z.of_nat ((Z.to_nat currentPage - 1) * Z.to_nat itemsPerPage)
                 = ((currentPage - 1) * itemsPerPage)%Z) by nia.
  lia.
Qed.

(** X16: for a positive page size, every page before the last holds
    exactly [itemsPerPage] products, the last page holds at least one and
    at most [itemsPerPage], and a page after the last is empty.  On the
    pages 1 to [totalPages] the number of products shown is what the
    footer prints: from [indexOfFirstItem + 1] to the smaller of
    [indexOfLastItem] and the number of products. *)
Theorem X16_page_sizes {A} (filteredProducts : list A) (currentPage itemsPerPage : Z) :
  (0 < itemsPerPage)%Z ->
  (1 <= currentPage)%Z ->
  let pages := totalPages filteredProducts itemsPerPage in
  let shown := Z.of_nat (List.length (currentProducts filteredProducts currentPage itemsPerPage)) in
  ((currentPage < pages -> shown = itemsPerPage) /\
   (currentPage = pages -> 1 <= shown <= itemsPerPage) /\
   (pages < currentPage -> shown = 0) /\
   (currentPage <= pages ->
    shown = Z.min (indexOfLastItem currentPage itemsPerPage)
                  (Z.of_nat (List.length filteredProducts))
            - indexOfFirstItem currentPage itemsPerPage))%Z.
Proof.
  intros Hpos Hcp. cbv zeta.
  pose proof (totalPages_bounds filteredProducts itemsPerPage Hpos) as Hb.
  rewrite (currentProducts_length filteredProducts currentPage itemsPerPage Hpos Hcp).
  unfold indexOfFirstItem, indexOfLastItem.
  repeat split; intros; nia.
Qed.

Lemma X16_page_sizes_witness :
  ((3 < totalPages sample_catalog 3 ->
    Z.of_nat (List.length (currentProducts sample_catalog 3 3)) = 3) /\
   (3 = totalPages sample_catalog 3 ->
    1 <= Z.of_nat (List.length (currentProducts sample_catalog 3 3)) <= 3) /\
   (totalPages sample_catalog 3 < 3 ->
    Z.of_nat (List.length (currentProducts sample_catalog 3 3)) = 0) /\
   (3 <= totalPages sample_catalog 3 ->
    Z.of_nat (List.length (currentProducts sample_catalog 3 3)) =
    Z.min (indexOfLastItem 3 3) (Z.of_nat (List.length sample_catalog))
    - indexOfFirstItem 3 3))%Z.
Proof.
  apply (X16_page_sizes sample_catalog 3 3); lia.
Defined.

(** ** The page bar *)

Lemma ascending_weaken (p p' : Z) (l : list Z) :
  (p' <= p)%Z -> ascending p l -> ascending p' l.
Proof. destruct l; simpl; [auto|]. intros Hp [Hlt Hrest]. split; [lia | assumption]. Qed.

Lemma ascending_filter (f : Z -> bool) (p : Z) (l : list Z) :
  ascending p l -> ascending p (filter f l).
Proof.
  revert p. induction l as [|i l IH]; simpl; intros p H; [exact I|].
  destruct H as [Hlt Hrest]. destruct (f i); simpl.
  - split; [assumption | apply IH, Hrest].
  - apply (ascending_weaken i); [lia | apply IH, Hrest].
Qed.

Lemma ascending_seq (n a : nat) (p : Z) :
  (p < Z.of_nat a)%Z -> ascending p (map Z.of_nat (seq a n)).
Proof.
  revert a p. induction n as [|n IH]; simpl; intros a p H; [exact I|].
  split; [assumption | apply IH; lia].
Qed.

Lemma page_range_head (currentPage totalPages : Z) :
  (1 <= totalPages)%Z ->
  exists rest,
    page_range currentPage totalPages = 1%Z :: rest /\ ascending 1 rest /\
    (forall i, In i rest -> (1 <= i <= totalPages)%Z).
Proof.
  intros Htp. unfold page_range, pages_upto.
  destruct (Z.to_nat totalPages) as [|m] eqn:Hm; [lia|].
  cbn [seq map filter]. unfold in_page_range at 1. cbn [Z.eqb Z.of_nat Pos.of_succ_nat Pos.eqb orb].
  eexists. split; [reflexivity|]. split.
  - apply ascending_filter, ascending_seq. lia.
  - intros i Hi. apply filter_In in Hi. destruct Hi as [Hi _].
    apply in_map_iff in Hi. destruct Hi as (k & <- & Hk). apply in_seq in Hk. lia.
Qed.

Lemma bar_rangeWithDots (range : list Z) (l : Z) :
  (1 <= l)%Z -> ascending l range -> bar_after l (rangeWithDots (Some l) range) = true.
Proof.
  revert l. induction range as [|i rest IH]; intros l Hl Hasc; [reflexivity|].
  destruct Hasc as [Hlt Hrest]. cbn [rangeWithDots].
  destruct (Z.eqb_spec l 0); [lia|].
  assert (Hi : bar_after i (rangeWithDots (Some i) rest) = true) by (apply IH; [lia | assumption]).
  destruct (Z.eqb_spec (i - l) 2) as [H2|H2].
  - cbn [app bar_after]. rewrite Hi, Z.eqb_refl.
    replace (i =? l + 1 + 1)%Z with true by (symmetry; apply Z.eqb_eq; lia). reflexivity.
  - destruct (Z.eqb_spec (i - l) 1) as [H1|H1]; cbn [negb app bar_after]; rewrite Hi.
    + replace (i =? l + 1)%Z with true by (symmetry; apply Z.eqb_eq; lia). reflexivity.
    + replace (l + 3 <=? i)%Z with true by (symmetry; apply Z.leb_le; lia). reflexivity.
Qed.

(** X17: with at least one page, whatever the current page, the page bar
    starts with the button of page 1, and from there on: the button after
    a numbered button is the next page or an ellipsis; an ellipsis is
    always followed by a numbered button and stands for at least two
    pages.  So the numbers go up, no page is left out without an ellipsis,
    no two ellipses touch and the bar does not end on one. *)
Theorem X17_page_bar_is_well_laid (currentPage totalPages : Z) :
  (1 <= totalPages)%Z ->
  exists rest,
    getPageNumbers currentPage totalPages = PageNumber 1 :: rest /\
    bar_after 1 rest = true.
Proof.
  intros Htp. unfold getPageNumbers.
  destruct (page_range_head currentPage totalPages Htp) as (rest & -> & Hasc & _).
  cbn [rangeWithDots app]. eexists. split; [reflexivity|].
  apply bar_rangeWithDots; [lia | assumption].
Qed.

Lemma X17_page_bar_witness :
  exists rest,
    getPageNumbers 10 20 = PageNumber 1 :: rest /\ bar_after 1 rest = true.
Proof.
  apply (X17_page_bar_is_well_laid 10 20). lia.
Defined.

Lemma In_rangeWithDots (range : list Z) (l : option Z) (i : Z) :
  In i range -> In (PageNumber i) (rangeWithDots l range).
Proof.
  revert l. induction range as [|j rest IH]; intros l Hin; [destruct Hin|].
  cbn [rangeWithDots]. apply in_or_app. right.
  destruct Hin as [->|Hin]; [left; reflexivity | right; apply IH, Hin].
Qed.

Lemma rangeWithDots_within (range : list Z) (l : option Z) (lo hi n : Z) :
  (forall i, In i range -> (lo <= i <= hi)%Z) ->
  (forall l', l = Some l' -> (lo <= l')%Z) ->
  In (PageNumber n) (rangeWithDots l range) ->
  (lo <= n <= hi)%Z.
Proof.
  revert l. induction range as [|i rest IH]; intros l Hr Hl Hin; [destruct Hin|].
  cbn [rangeWithDots] in Hin. apply in_app_or in Hin.
  pose proof (Hr i (or_introl eq_refl)) as Hi.
  destruct Hin as [Hin|[Hin|Hin]].
  - destruct l as [l'|]; [|destruct Hin].
    specialize (Hl l' eq_refl).
    destruct (Z.eqb_spec l' 0); [destruct Hin|].
    destruct (Z.eqb_spec (i - l') 2).
    + destruct Hin as [Hin|[]]. injection Hin as <-. lia.
    + destruct (negb (i - l' =? 1)%Z);
        [destruct Hin as [Hin|[]]; discriminate Hin | destruct Hin].
  - injection Hin as <-. exact Hi.
  - apply (IH (Some i)); [intros j Hj; apply Hr; right; exact Hj | | exact Hin].
    intros l' E. injection E as <-. lia.
Qed.

Lemma rangeWithDots_last (range : list Z) (l : option Z) (x : Z) :
  exists pre, rangeWithDots l (range ++ [x]) = (pre ++ [PageNumber x])%list.
Proof.
  revert l. induction range as [|i rest IH]; intros l.
  - cbn [app rangeWithDots]. eexists. reflexivity.
  - cbn [app rangeWithDots]. destruct (IH (Some i)) as [pre ->].
    eexists. rewrite app_comm_cons, app_assoc. reflexivity.
Qed.

Lemma page_range_last (currentPage totalPages : Z) :
  (1 <= totalPages)%Z ->
  exists init, page_range currentPage totalPages = (init ++ [totalPages])%list.
Proof.
  intros Htp. unfold page_range, pages_upto.
  destruct (Z.to_nat totalPages) as [|m] eqn:Hm; [lia|].
  rewrite seq_S, map_app, filter_app. cbn [map filter].
  replace (Z.of_nat (1 + m)) with totalPages by lia.
  unfold in_page_range at 2. rewrite Z.eqb_refl, orb_true_r. cbn [orb].
  eexists. reflexivity.
Qed.

(** X18: on a page between 1 and [totalPages], the page bar has the
    button of the current page, its last button is the last page, and
    every numbered button is a page between 1 and [totalPages]. *)
Theorem X18_page_bar_has_current_and_last (currentPage totalPages : Z) :
  (1 <= currentPage <= totalPages)%Z ->
  In (PageNumber currentPage) (getPageNumbers currentPage totalPages) /\
  last (getPageNumbers currentPage totalPages) Ellipsis = PageNumber totalPages /\
  (forall n, In (PageNumber n) (getPageNumbers currentPage totalPages) ->
             (1 <= n <= totalPages)%Z).
Proof.
  intros Hcp. unfold getPageNumbers. split; [|split].
  - apply In_rangeWithDots. unfold page_range. apply filter_In. split.
    + unfold pages_upto. apply in_map_iff. exists (Z.to_nat currentPage).
      split; [lia | apply in_seq; lia].
    + unfold in_page_range, delta.
      replace (currentPage - 2 <=? currentPage)%Z with true by (symmetry; apply Z.leb_le; lia).
      replace (currentPage <=? currentPage + 2)%Z with true by (symmetry; apply Z.leb_le; lia).
      apply orb_true_r.
  - destruct (page_range_last currentPage totalPages ltac:(lia)) as [init ->].
    destruct (rangeWithDots_last init None totalPages) as [pre ->].
    apply last_last.
  - intros n Hn.
    apply (rangeWithDots_within (page_range currentPage totalPages) None 1 totalPages n);
      [| discriminate | exact Hn].
    intros i Hi. unfold page_range in Hi. apply filter_In in Hi. destruct Hi as [Hi _].
    unfold pages_upto in Hi. apply in_map_iff in Hi. destruct Hi as (k & <- & Hk).
    apply in_seq in Hk. lia.
Qed.

Lemma X18_page_bar_witness :
  In (PageNumber 10) (getPageNumbers 10 20) /\
  last (getPageNumbers 10 20) Ellipsis = PageNumber 20 /\
  (forall n, In (PageNumber n) (getPageNumbers 10 20) -> (1 <= n <= 20)%Z).
Proof.
  apply (X18_page_bar_has_current_and_last 10 20). lia.
Defined.

Lemma is_page_In (n : Z) (items : list PageItem) :
  existsb (is_page n) items = true -> In (PageNumber n) items.
Proof.
  intros H. apply existsb_exists in H. destruct H as (item & Hin & Hp).
  destruct item as [m|]; [|discriminate Hp].
  apply Z.eqb_eq in Hp. subst. exact Hin.
Qed.

Lemma click_within (totalPages currentPage : Z) (c : Click) :
  (1 <= currentPage <= totalPages)%Z ->
  (1 <= click totalPages currentPage c <= totalPages)%Z.
Proof.
  intros Hcp. destruct c as [ | | n]; cbn [click].
  - unfold handlePreviousPage. destruct (Z.ltb_spec 1 currentPage); lia.
  - unfold handleNextPage. destruct (Z.ltb_spec currentPage totalPages); lia.
  - destruct (existsb (is_page n) (getPageNumbers currentPage totalPages)) eqn:He; [|lia].
    apply is_page_In in He.
    assert (H1 : (1 <= totalPages)%Z) by lia.
    unfold getPageNumbers in He.
    apply (rangeWithDots_within (page_range currentPage totalPages) None 1 totalPages n)
      in He; [exact He | | discriminate].
    intros i Hi. unfold page_range in Hi. apply filter_In in Hi. destruct Hi as [Hi _].
    unfold pages_upto in Hi. apply in_map_iff in Hi. destruct Hi as (k & <- & Hk).
    apply in_seq in Hk. lia.
Qed.

(** X19: starting on a page between 1 and [totalPages], no sequence of
    clicks on Previous, Next and the numbered buttons of the page bar
    leads to a page outside 1 to [totalPages]; Previous does nothing on
    page 1 and Next nothing on the last page. *)
Theorem X19_clicks_stay_on_the_pages (totalPages currentPage : Z) (clicks : list Click) :
  (1 <= currentPage <= totalPages)%Z ->
  (1 <= fold_left (click totalPages) clicks currentPage <= totalPages)%Z /\
  click totalPages 1 ClickPrevious = 1%Z /\
  click totalPages totalPages ClickNext = totalPages.
Proof.
  intros Hcp. split; [|split].
  - revert currentPage Hcp. induction clicks as [|c clicks IH]; intros currentPage Hcp.
    + exact Hcp.
    + cbn [fold_left]. apply IH, click_within, Hcp.
  - reflexivity.
  - cbn [click]. unfold handleNextPage. rewrite Z.ltb_irrefl. reflexivity.
Qed.

Lemma X19_clicks_witness :
  (1 <= fold_left (click 20) [ClickNext; ClickPage 13; ClickPrevious; ClickPage 20; ClickNext] 10
   <= 20)%Z /\
  click 20 1 ClickPrevious = 1%Z /\
  click 20 20 ClickNext = 20%Z.
Proof.
  apply (X19_clicks_stay_on_the_pages 20 10). lia.
Defined.

(** X20: with at most five pages the bar shows every page and no
    ellipsis, whichever page is the current one. *)
Theorem X20_up_to_five_pages_all_shown (currentPage totalPages : Z) :
  (1 <= currentPage <= totalPages)%Z ->
  (totalPages <= 5)%Z ->
  getPageNumbers currentPage totalPages = map PageNumber (pages_upto totalPages).
Proof.
  intros Hcp Htp.
  assert (Ht : (totalPages = 1 \/ totalPages = 2 \/ totalPages = 3 \/ totalPages = 4
                \/ totalPages = 5)%Z) by lia.
  assert (Hc : (currentPage = 1 \/ currentPage = 2 \/ currentPage = 3 \/ currentPage = 4
                \/ currentPage = 5)%Z) by lia.
  destruct Ht as [->|[->|[->|[->| ->]]]]; destruct Hc as [->|[->|[->|[->| ->]]]];
    try lia; reflexivity.
Qed.

Lemma X20_up_to_five_pages_witness :
  getPageNumbers 1 5 = map PageNumber (pages_upto 5).
Proof.
  apply (X20_up_to_five_pages_all_shown 1 5); lia.
Defined.

(** ** The search of the table *)

Lemma includes_empty (s : string) : includes s "" = true.
Proof. destruct s; reflexivity. Qed.

Lemma is_row_fields (p : JsValue) :
  is_row p = true ->
  exists props name sku,
    p = JObj props /\
    assoc "name" props = Some (JStr name) /\
    assoc "sku" props = Some (JStr sku) /\
    text_or_absent (assoc "manufacturer" props) = true.
Proof.
  destruct p as [ | | | | | props]; try discriminate. unfold is_row.
  destruct (assoc "name" props) as [[ | | | name | | ]|] eqn:Hn; try discriminate;
    destruct (assoc "sku" props) as [[ | | | sku | | ]|] eqn:Hs; try discriminate.
  intros H. exists props, name, sku. auto.
Qed.

(** On a row, the callback is the test on the three texts. *)
Lemma tableFilter_row (q : string) (p : JsValue) :
  is_row p = true ->
  tableFilter q p =
  Ok (contains_ci (text_of p "name") q ||
      contains_ci (text_of p "sku") q ||
      (negb (String.eqb (text_of p "manufacturer") "") &&
       contains_ci (text_of p "manufacturer") q)).
Proof.
  intros Hp. destruct (is_row_fields p Hp) as (props & name & sku & -> & Hn & Hs & Hm).
  unfold tableFilter, text_includes, contains_ci, text_of. cbn [get rbind].
  rewrite Hn, Hs. cbn [call_toLowerCase rbind]. rewrite orR_Ok.
  destruct (assoc "manufacturer" props) as [[ | | | m | | ]|]; simpl in Hm; try discriminate;
    cbn [ToBoolean rbind call_toLowerCase negb andb String.eqb].
  - rewrite orR_Ok, orb_false_r. reflexivity.
  - destruct (m =? "")%string; cbn [negb andb rbind]; rewrite orR_Ok; reflexivity.
  - rewrite orR_Ok, orb_false_r. reflexivity.
Qed.

Lemma filter_all {A} (l : list A) : filter (fun _ => true) l = l.
Proof. induction l as [|x l IH]; simpl; [|rewrite IH]; reflexivity. Qed.

(** X21: with an empty search term the table shows every row, in the
    order served: the empty string is found in every name. *)
Theorem X21_empty_search_shows_every_row (ps : list JsValue) :
  forallb is_row ps = true ->
  tableProducts (JArr ps) "" = Ok ps.
Proof.
  intros Hps. unfold tableProducts. cbn [call_filter].
  rewrite (filterR_pure _ (fun _ => true)); [rewrite filter_all; reflexivity|].
  intros p Hp. rewrite forallb_forall in Hps.
  rewrite (tableFilter_row "" p (Hps p Hp)).
  unfold contains_ci. cbn [toLowerCase]. rewrite includes_empty. reflexivity.
Qed.

Lemma X21_empty_search_witness :
  tableProducts (JArr sample_catalog) "" = Ok sample_catalog.
Proof.
  apply (X21_empty_search_shows_every_row sample_catalog). reflexivity.
Defined.

(** X22: the search of the table looks at name, SKU and manufacturer, and
    not at the category.  Over rows it never throws, returns rows of the
    list in their order, and every row it returns is one the four-field
    matcher of the relay accepts for the same term; a row that matches by
    its category alone is accepted by the relay and not shown by the
    table. *)
Theorem X22_table_search_is_narrower_than_the_relay (ps : list JsValue) (searchTerm : string) :
  forallb is_row ps = true ->
  exists shown,
    tableProducts (JArr ps) searchTerm = Ok shown /\
    Subseq shown ps /\
    (forall p, In p shown -> spec_matcher searchTerm p = true) /\
    (forall p, In p ps ->
       contains_ci (text_of p "name") searchTerm = false ->
       contains_ci (text_of p "sku") searchTerm = false ->
       contains_ci (text_of p "manufacturer") searchTerm = false ->
       ~ In p shown).
Proof.
  intros Hps. unfold tableProducts. cbn [call_filter].
  set (g := fun p =>
         contains_ci (text_of p "name") searchTerm ||
         contains_ci (text_of p "sku") searchTerm ||
         (negb (String.eqb (text_of p "manufacturer") "") &&
          contains_ci (text_of p "manufacturer") searchTerm)).
  assert (Hf : filterR (tableFilter searchTerm) ps = Ok (filter g ps)).
  { apply filterR_pure. intros p Hp. rewrite forallb_forall in Hps.
    apply tableFilter_row, Hps, Hp. }
  exists (filter g ps). split; [exact Hf|]. split; [eapply filterR_Subseq; exact Hf|]. split.
  - intros p Hp. apply filter_In in Hp. destruct Hp as [_ Hg]. unfold g in Hg.
    unfold spec_matcher.
    destruct (contains_ci (text_of p "name") searchTerm); [reflexivity|].
    destruct (contains_ci (text_of p "sku") searchTerm);
      [rewrite !orb_true_r; reflexivity|].
    destruct (contains_ci (text_of p "manufacturer") searchTerm);
      [rewrite orb_true_r; reflexivity|].
    rewrite andb_false_r in Hg. discriminate Hg.
  - intros p _ Hn Hs Hm Hin. apply filter_In in Hin. destruct Hin as [_ Hg].
    unfold g in Hg. rewrite Hn, Hs, Hm, andb_false_r in Hg. discriminate Hg.
Qed.

Lemma X22_table_search_witness :
  exists shown,
    tableProducts (JArr sample_catalog) "dishwasher parts" = Ok shown /\
    Subseq shown sample_catalog /\
    (forall p, In p shown -> spec_matcher "dishwasher parts" p = true) /\
    (forall p, In p sample_catalog ->
       contains_ci (text_of p "name") "dishwasher parts" = false ->
       contains_ci (text_of p "sku") "dishwasher parts" = false ->
       contains_ci (text_of p "manufacturer") "dishwasher parts" = false ->
       ~ In p shown).
Proof.
  apply (X22_table_search_is_narrower_than_the_relay sample_catalog "dishwasher parts").
  reflexivity.
Defined.

(** ** The guard in front of the relay *)

Lemma trimStart_blank (s : string) : whitespace_only s = true -> trimStart s = "".
Proof.
  induction s as [|c s IH]; simpl; [reflexivity|].
  intros H. apply andb_true_iff in H. destruct H as [Hc Hs]. rewrite Hc. auto.
Qed.

Lemma trimStart_not_blank (s : string) :
  whitespace_only s = false ->
  exists c rest, trimStart s = String c rest /\ is_whitespace c = false.
Proof.
  induction s as [|c s IH]; simpl; [discriminate|].
  destruct (is_whitespace c) eqn:Hc; simpl; [exact IH|].
  intros _. exists c, s. auto.
Qed.

Lemma trimEnd_keeps_text (c : ascii) (rest : string) :
  is_whitespace c = false -> trimEnd (String c rest) <> "".
Proof.
  intros Hc. cbn [trimEnd]. destruct (trimEnd rest); [rewrite Hc|]; discriminate.
Qed.

Lemma trim_blank (s : string) : trim s = "" <-> whitespace_only s = true.
Proof.
  unfold trim. split.
  - intros H. destruct (whitespace_only s) eqn:Hw; [reflexivity|].
    destruct (trimStart_not_blank s Hw) as (c & rest & E & Hc).
    rewrite E in H. destruct (trimEnd_keeps_text c rest Hc H).
  - intros H. rewrite (trimStart_blank s H). reflexivity.
Qed.

(** X23: the dashboard posts a query to the relay exactly when the query
    has something other than whitespace in it, and posts it untrimmed.  A
    request it posts always passes the guard of the relay: the response is
    never InvalidInput, and the catalog is fetched. *)
Theorem X23_dashboard_never_sends_a_blank_query (aiQuery : string) :
  (aiRequest aiQuery = None <-> whitespace_only aiQuery = true) /\
  (forall body w,
     aiRequest aiQuery = Some body ->
     request_json w = Ok body ->
     body = JObj [("query", JStr aiQuery)] /\
     status (response_of w) <> 400 /\
     exists log, calls_of w = CatalogFetch :: log).
Proof.
  unfold aiRequest. cbn [ToBoolean].
  destruct (String.eqb_spec (trim aiQuery) "") as [Hb|Hb]; cbn [negb].
  - split.
    + split; [intros _; apply trim_blank, Hb | reflexivity].
    + intros body w H. discriminate H.
  - split.
    + split; [discriminate|]. intros Hw. apply trim_blank in Hw. contradiction.
    + intros body w H Hreq. injection H as <-. split; [reflexivity|].
      assert (Hne : aiQuery <> "") by (intros ->; apply Hb; reflexivity).
      pose proof (accepted_query w [("query", JStr aiQuery)] aiQuery Hreq eq_refl Hne) as Hacc.
      destruct (POST_outcome w); try congruence;
        (split; [cbn; discriminate | eexists; reflexivity]).
Qed.

Lemma X23_dashboard_witness :
  JObj [("query", JStr " drain pump ")] = JObj [("query", JStr " drain pump ")] /\
  status (response_of (world0 (JStr " drain pump ") None (Throw Rejected))) <> 400 /\
  exists log, calls_of (world0 (JStr " drain pump ") None (Throw Rejected)) = CatalogFetch :: log.
Proof.
  apply (proj2 (X23_dashboard_never_sends_a_blank_query " drain pump ")
               (JObj [("query", JStr " drain pump ")])
               (world0 (JStr " drain pump ") None (Throw Rejected)));
    reflexivity.
Defined.
